(** * llmguard: the scan route handler

    A shallow embedding of the [POST] handler of the scan API route (the
    first, most complete of the three variants of the route in the
    repository: proxy to the scanning backend, normalisation of the
    backend's reply, local heuristic fallback), and the properties of
    the specification checked against it.

    Conventions of the embedding:
    - a JavaScript string is a [string] whose characters are read as the
      code units U+0000 to U+00FF;
    - a JavaScript number is a binary64 [float];
    - a value obtained from [JSON.parse] is a [jsval]; the backend's reply
      is taken as any such value, the request body as a value of the
      interface [ScanRequest];
    - an exception thrown inside a [try] block is [None] in the option
      monad; the enclosing [catch] is the [match] on that option;
    - the one call of the backend is an input of the handler, given by
      what it came to ([RemoteOutcome]);
    - a response is the value handed to [NextResponse.json], before it is
      written out as text. *)

From Stdlib Require Import PrimFloat Ascii String.
From Stdlib Require FloatAxioms SpecFloat.
From stdpp Require Import base option list strings.

#[local] Set Warnings "-inexact-float,-register-all".
#[local] Open Scope string_scope.

(** ** Characters and strings *)

Module Chars.

Definition code (c : ascii) : nat := nat_of_ascii c.

Definition between (lo hi : nat) (c : ascii) : bool :=
  (lo <=? code c)%nat && (code c <=? hi)%nat.

Definition is_digit : ascii -> bool := between 48 57.     (* \d, [0-9] *)
Definition is_upper : ascii -> bool := between 65 90.     (* [A-Z] *)
Definition is_lower : ascii -> bool := between 97 122.    (* [a-z] *)
Definition is_alpha (c : ascii) : bool := is_upper c || is_lower c.
Definition is_alnum (c : ascii) : bool := is_alpha c || is_digit c.

Definition only (x : ascii) (c : ascii) : bool := Ascii.eqb x c.

(** [\w]: letters, digits and the underscore. *)
Definition is_word (c : ascii) : bool := is_alnum c || only "_" c.

(** [\s] on the code units below U+0100: TAB, LF, VT, FF, CR, SP, NBSP. *)
Definition is_space (c : ascii) : bool :=
  between 9 13 c || (code c =? 32)%nat || (code c =? 160)%nat.

(** The letters [String.prototype.toLowerCase] changes below U+0100:
    A-Z, and U+00C0-U+00DE except the multiplication sign U+00D7. *)
Definition has_lower (c : ascii) : bool :=
  is_upper c || (between 192 222 c && negb (code c =? 215)%nat).

Definition to_lower (c : ascii) : ascii :=
  if has_lower c then ascii_of_nat (code c + 32) else c.

End Chars.

Fixpoint toLowerCase (s : string) : string :=
  match s with
  | EmptyString => EmptyString
  | String c s' => String (Chars.to_lower c) (toLowerCase s')
  end.

(** [s.includes(w)] *)
Fixpoint includes (s w : string) : bool :=
  if String.prefix w s then true
  else match s with
       | EmptyString => false
       | String _ s' => includes s' w
       end.

(** ** Regular expressions

    The five patterns of the handler use character classes, sequences,
    alternatives, greedy quantifiers and [\b]. The matcher follows the
    backtracking semantics of ECMA-262 (22.2.2): a matcher takes the
    current position and a continuation, and a quantifier first tries one
    more iteration and then the continuation. A position is the rest of
    the input together with whether the character before it is a word
    character, which is all [\b] looks at. *)

Inductive regex : Type :=
| Empty
| Chr (p : ascii -> bool)
| Seq (r1 r2 : regex)
| Alt (r1 r2 : regex)
| Rep (r : regex) (lo : nat) (hi : option nat)
| WordBoundary.

Module Regex.

Definition Continuation : Type := bool -> string -> option string.

Definition next_is_word (s : string) : bool :=
  match s with
  | EmptyString => false
  | String c _ => Chars.is_word c
  end.

Definition dec (hi : option nat) : option nat := Nat.pred <$> hi.

Definition exhausted (hi : option nat) : bool :=
  match hi with Some O => true | _ => false end.

Definition Matcher : Type := bool -> string -> Continuation -> option string.

(** RepeatMatcher once the forced iterations are done: try one more
    iteration of [m], which must consume input (step 2.b), then the
    continuation. [n] bounds the length of the rest, hence the number of
    iterations left. *)
Fixpoint greedy (m : Matcher) (k : Continuation) (n : nat) (hi : option nat)
  (w : bool) (s : string) {struct n} : option string :=
  if exhausted hi then k w s
  else match n with
       | O => k w s
       | S n' =>
           match m w s (fun w' s' =>
                   if (String.length s' <? String.length s)%nat
                   then greedy m k n' (dec hi) w' s'
                   else None) with
           | Some rest => Some rest
           | None => k w s
           end
       end.

(** RepeatMatcher: [lo] forced iterations of [m], then the greedy ones. *)
Fixpoint forced (m : Matcher) (k : Continuation) (lo : nat) (hi : option nat)
  (w : bool) (s : string) {struct lo} : option string :=
  match lo with
  | O => greedy m k (String.length s) hi w s
  | S lo' =>
      if exhausted hi then None
      else m w s (fun w' s' => forced m k lo' (dec hi) w' s')
  end.

(** [matcher r w s k]: match [r] at the position [(w, s)], then [k]. *)
Fixpoint matcher (r : regex) (w : bool) (s : string) (k : Continuation)
  : option string :=
  match r with
  | Empty => k w s
  | Chr p =>
      match s with
      | String c s' => if p c then k (Chars.is_word c) s' else None
      | EmptyString => None
      end
  | Seq r1 r2 => matcher r1 w s (fun w' s' => matcher r2 w' s' k)
  | Alt r1 r2 =>
      match matcher r1 w s k with
      | Some rest => Some rest
      | None => matcher r2 w s k
      end
  | WordBoundary => if xorb w (next_is_word s) then k w s else None
  | Rep r1 lo hi => forced (matcher r1) k lo hi w s
  end.

(** One attempt at a fixed position: the rest of the input after the
    match. *)
Definition match_at (r : regex) (w : bool) (s : string) : option string :=
  matcher r w s (fun _ rest => Some rest).

(** [r.test(s)] with [lastIndex] 0: is there a match at some position. *)
Fixpoint search (r : regex) (w : bool) (s : string) : bool :=
  match match_at r w s with
  | Some _ => true
  | None =>
      match s with
      | EmptyString => false
      | String c s' => search r (Chars.is_word c) s'
      end
  end.

Definition test (r : regex) (s : string) : bool := search r false s.

(** [s.replace(r, by)] for a global [r] and a replacement without [$]:
    every match, leftmost first, the next search starting where the
    match ended (one character further after an empty match). [skip]
    counts the characters of the current match still to drop. *)
Fixpoint replace_from (r : regex) (by_ : string) (w : bool) (s : string)
  (skip : nat) : string :=
  match s with
  | EmptyString =>
      match skip, match_at r w s with
      | O, Some _ => by_
      | _, _ => EmptyString
      end
  | String c s' =>
      match skip with
      | S n => replace_from r by_ (Chars.is_word c) s' n
      | O =>
          match match_at r w s with
          | None => String c (replace_from r by_ (Chars.is_word c) s' 0)
          | Some rest =>
              match String.length s - String.length rest with
              | O => by_ +:+ String c (replace_from r by_ (Chars.is_word c) s' 0)
              | S n => by_ +:+ replace_from r by_ (Chars.is_word c) s' n
              end
          end
      end
  end.

Definition replace (r : regex) (by_ : string) (s : string) : string :=
  replace_from r by_ false s 0.

(** Derived forms. *)
Definition opt (r : regex) : regex := Rep r 0 (Some 1).        (* r?     *)
Definition plus (r : regex) : regex := Rep r 1 None.           (* r+     *)
Definition times (n : nat) (r : regex) : regex := Rep r n (Some n).  (* r{n} *)
Definition lit (c : ascii) : regex := Chr (Chars.only c).

Fixpoint text (s : string) : regex :=
  match s with
  | EmptyString => Empty
  | String c s' => Seq (lit c) (text s')
  end.

Fixpoint seq (rs : list regex) : regex :=
  match rs with
  | [] => Empty
  | r :: rs' => Seq r (seq rs')
  end.

End Regex.

(** ** The patterns of the fallback scanner bank (lines 171-179) *)

Module Patterns.
Import Regex.

Definition one_of (cs : string) (c : ascii) : bool :=
  existsb (Ascii.eqb c) (list_ascii_of_string cs).

Definition digit : regex := Chr Chars.is_digit.
Definition upper : regex := Chr Chars.is_upper.
Definition lower : regex := Chr Chars.is_lower.
Definition space : regex := Chr Chars.is_space.

(** [/[a-zA-Z0-9._%+-]+@[a-zA-Z0-9.-]+\.[a-zA-Z]{2,}/g] *)
Definition emailRegex : regex :=
  seq [ plus (Chr (fun c => Chars.is_alnum c || one_of "._%+-" c));
        lit "@";
        plus (Chr (fun c => Chars.is_alnum c || one_of ".-" c));
        lit ".";
        Rep (Chr Chars.is_alpha) 2 None ].

(** [[\s.-]] *)
Definition separator : regex :=
  Chr (fun c => Chars.is_space c || one_of ".-" c).

(** [/(\+\d{1,3})?[\s.-]?\(?\d{3}\)?[\s.-]?\d{3}[\s.-]?\d{4}/g] *)
Definition phoneRegex : regex :=
  seq [ opt (Seq (lit "+") (Rep digit 1 (Some 3)));
        opt separator;
        opt (lit "(");
        times 3 digit;
        opt (lit ")");
        opt separator;
        times 3 digit;
        opt separator;
        times 4 digit ].

(** [/\b(?:\d{4}[\s-]?){3}\d{4}\b/g] *)
Definition creditCardRegex : regex :=
  seq [ WordBoundary;
        times 3 (Seq (times 4 digit)
                     (opt (Chr (fun c => Chars.is_space c || one_of "-" c))));
        times 4 digit;
        WordBoundary ].

(** [/\b\d{3}[-]?\d{2}[-]?\d{4}\b/g] *)
Definition ssnRegex : regex :=
  seq [ WordBoundary;
        times 3 digit; opt (lit "-");
        times 2 digit; opt (lit "-");
        times 4 digit;
        WordBoundary ].

(** [/\b(?:Mr\.|Mrs\.|Ms\.|Dr\.)?\s?[A-Z][a-z]+ (?:[A-Z][a-z]+\s?)+/g] *)
Definition nameRegex : regex :=
  seq [ WordBoundary;
        opt (Alt (text "Mr.") (Alt (text "Mrs.") (Alt (text "Ms.") (text "Dr."))));
        opt space;
        upper; plus lower; lit " ";
        plus (seq [ upper; plus lower; opt space ]) ].

End Patterns.

(** ** JavaScript values

    What [JSON.parse] returns, and [undefined], which reading a missing
    property gives. An object is the list of its own properties; reading
    takes the first entry of a name. *)

Inductive jsval : Type :=
| JUndefined
| JNull
| JBool (b : bool)
| JNum (x : float)
| JStr (s : string)
| JArr (items : list jsval)
| JObj (fields : list (string * jsval)).

Module JS.

(** ToBoolean *)
Definition truthy (v : jsval) : bool :=
  match v with
  | JUndefined | JNull => false
  | JBool b => b
  | JNum x => negb (PrimFloat.eqb x 0 || PrimFloat.is_nan x)
  | JStr s => negb (s =? "")
  | JArr _ | JObj _ => true
  end.

(** [a || b] *)
Definition or (a b : jsval) : jsval := if truthy a then a else b.

(** [v !== false] *)
Definition not_false (v : jsval) : bool :=
  match v with
  | JBool false => false
  | _ => true
  end.

Fixpoint own (fields : list (string * jsval)) (k : string) : jsval :=
  match fields with
  | [] => JUndefined
  | (k', v) :: rest => if k' =? k then v else own rest k
  end.

(** [v.k] and [v[k]], for the names the handler reads: none of them is
    an index, [length], or a member of a built-in prototype, so only an
    object has them. Reading a property of [null] or [undefined] throws
    a TypeError. *)
Definition get (v : jsval) (k : string) : option jsval :=
  match v with
  | JUndefined | JNull => None
  | JObj fields => Some (own fields k)
  | _ => Some JUndefined
  end.

(** [v?.k] *)
Definition get_opt (v : jsval) (k : string) : jsval :=
  default JUndefined (get v k).

(** [Array.isArray(v)] *)
Definition isArray (v : jsval) : bool :=
  match v with
  | JArr _ => true
  | _ => false
  end.

Fixpoint put (fields : list (string * jsval)) (k : string) (v : jsval)
  : list (string * jsval) :=
  match fields with
  | [] => [(k, v)]
  | (k', v') :: rest =>
      if k' =? k then (k, v) :: rest else (k', v') :: put rest k v
  end.

(** [o.k = v] in strict mode (the route is an ES module). On an object
    it sets the property. On a number, string or boolean it throws a
    TypeError. On an array it succeeds, but a named property of an array
    is not part of the array's JSON form, which is all a response
    carries, and the handler never reads it back. *)
Definition set (o : jsval) (k : string) (v : jsval) : option jsval :=
  match o with
  | JObj fields => Some (JObj (put fields k v))
  | JArr items => Some (JArr items)
  | _ => None
  end.

(** Truthiness of [v.length], for a truthy [v]. *)
Definition has_length (v : jsval) : bool :=
  match v with
  | JArr items => negb (bool_decide (items = []))
  | JStr s => negb (s =? "")
  | _ => truthy (get_opt v "length")
  end.

End JS.

(** ** The data model of the route (lines 4-27) *)

Record ScanRequest : Type := {
  prompt : string;
  scanners : option (list string);
  banned_substrings_list : option (list string);
  regex_patterns_list : option (list string);
}.

(** The interface types [sanitized_prompt] as a string, [risk_score] as a
    number and [details] as a record, but the normaliser stores in them
    whatever the backend sent, so they hold a [jsval]. *)
Record ScannerResult : Type := {
  scanner_name : string;
  input_prompt : string;
  sanitized_prompt : jsval;
  is_valid : bool;
  risk_score : jsval;
  details : jsval;
}.

Record ScanResponse : Type := {
  original_prompt : string;
  final_sanitized_prompt : jsval;
  overall_is_valid : bool;
  applied_scanners_results : list ScannerResult;
}.

(** [body.scanners || ["anonymize"]]: an array, even an empty one, is
    truthy; a missing or [null] field is not. *)
Definition requestedScanners (body : ScanRequest) : list string :=
  default ["anonymize"] (scanners body).

(** [scannerResults.every((result) => result.is_valid)] *)
Definition every_is_valid (results : list ScannerResult) : bool :=
  forallb is_valid results.

(** ** The response normaliser (lines 65-155) *)

(** [scannerFieldMap[scannerName]], as the property name it selects in
    [apiData[resultField]]. The map is an object literal, so besides its
    six own entries it answers for the members it inherits from
    [Object.prototype]; such a member is truthy and, used as a property
    name, is turned into a string: the source text of a native function
    (as Node prints it), or [[object Object]] for [__proto__]. *)
Definition inherited_member (name : string) : option string :=
  if name =? "constructor" then Some "function Object() { [native code] }"
  else if name =? "__proto__" then Some "[object Object]"
  else if bool_decide (name ∈ [ "__defineGetter__"; "__defineSetter__";
                                "hasOwnProperty"; "__lookupGetter__";
                                "__lookupSetter__"; "isPrototypeOf";
                                "propertyIsEnumerable"; "toString";
                                "valueOf"; "toLocaleString" ])
  then Some ("function " +:+ name +:+ "() { [native code] }")
  else None.

Definition scannerFieldMap (scannerName : string) : option string :=
  if scannerName =? "anonymize" then Some "anonymize_result"
  else if scannerName =? "toxicity" then Some "toxicity_result"
  else if scannerName =? "secrets" then Some "secrets_result"
  else if scannerName =? "bansubstrings" then Some "banned_substrings_result"
  else if scannerName =? "regex" then Some "regex_result"
  else if scannerName =? "code" then Some "code_result"
  else inherited_member scannerName.

Definition with_details (r : ScannerResult) (d : jsval) : ScannerResult :=
  {| scanner_name := scanner_name r; input_prompt := input_prompt r;
     sanitized_prompt := sanitized_prompt r; is_valid := is_valid r;
     risk_score := risk_score r; details := d |}.

Definition with_is_valid (r : ScannerResult) (b : bool) : ScannerResult :=
  {| scanner_name := scanner_name r; input_prompt := input_prompt r;
     sanitized_prompt := sanitized_prompt r; is_valid := b;
     risk_score := risk_score r; details := details r |}.

Section Normalizer.

(** ToNumber of a string, an array or an object (ECMA-262 7.1.4, through
    ToPrimitive for the last two): the number the engine reads in it,
    [None] when the conversion throws. The handler needs it only to
    compare a score that is not a number; it is a parameter of the
    embedding, and nothing is assumed about it. *)
Variable ToNumber_of : jsval -> option float.

Definition ToNumber (v : jsval) : option float :=
  match v with
  | JUndefined => Some nan
  | JNull => Some 0%float
  | JBool b => Some (if b then 1%float else 0%float)
  | JNum x => Some x
  | _ => ToNumber_of v
  end.

(** [item.score > 0.7] *)
Definition score_exceeds (item : jsval) : option bool :=
  score ← JS.get item "score";
  x ← ToNumber score;
  Some (0.7 <? x)%float.

(** [items.some((item) => item.score > 0.7)]: stops at the first item
    that passes. *)
Fixpoint some_score_exceeds (items : list jsval) : option bool :=
  match items with
  | [] => Some false
  | item :: rest =>
      hit ← score_exceeds item;
      if hit : bool then Some true else some_score_exceeds rest
  end.

(** [toxicity.some(...)]: only an array has the method. *)
Definition toxicity_some (toxicity : jsval) : option bool :=
  match toxicity with
  | JArr items => some_score_exceeds items
  | _ => None
  end.

(** Lines 85-112: the result before the detection rules. Once a
    property of [apiData] has been read without a throw, [apiData] is
    neither [null] nor [undefined] and the later reads cannot throw. *)
Definition scanner_result (apiData : jsval) (body : ScanRequest)
  (scannerName : string) : option ScannerResult :=
  result ← match scannerFieldMap scannerName with
           | Some resultField => JS.get apiData resultField
           | None => Some JNull
           end;
  if JS.truthy result then
    Some {| scanner_name := scannerName;
            input_prompt := prompt body;
            sanitized_prompt :=
              JS.or (JS.get_opt result "sanitized_prompt")
                (JS.or (JS.get_opt apiData "sanitized_prompt")
                   (JStr (prompt body)));
            is_valid := JS.not_false (JS.get_opt result "is_valid");
            risk_score := JS.or (JS.get_opt result "risk_score") (JNum 0);
            details := JS.or (JS.get_opt result "details") (JObj []) |}
  else
    top ← JS.get apiData "sanitized_prompt";
    Some {| scanner_name := scannerName;
            input_prompt := prompt body;
            sanitized_prompt := JS.or top (JStr (prompt body));
            is_valid :=
              if scannerName =? "anonymize"
              then JS.not_false (JS.get_opt apiData "is_valid")
              else true;
            risk_score :=
              if scannerName =? "anonymize"
              then JS.or (JS.get_opt apiData "risk_score") (JNum 0)
              else JNum 0;
            details := JObj [] |}.

(** Lines 114-134: the detection rules, on [apiData.detection?.x]. *)
Definition apply_detection (apiData : jsval) (scannerName : string)
  (scannerResult : ScannerResult) : option ScannerResult :=
  let detection := JS.get_opt apiData "detection" in
  if (scannerName =? "anonymize") && JS.truthy (JS.get_opt detection "pii")
  then
    d ← JS.set (details scannerResult) "pii_detected" (JBool true);
    d' ← JS.set d "entities" (JS.get_opt detection "pii");
    Some (with_details scannerResult d')
  else if (scannerName =? "toxicity")
          && JS.truthy (JS.get_opt detection "toxicity")
  then
    d ← JS.set (details scannerResult) "toxicity_scores"
           (JS.get_opt detection "toxicity");
    hit ← toxicity_some (JS.get_opt detection "toxicity");
    Some (with_is_valid (with_details scannerResult d) (negb hit))
  else if (scannerName =? "bansubstrings")
          && JS.truthy (JS.get_opt detection "banned_substrings")
  then
    d ← JS.set (details scannerResult) "banned_matches"
           (JS.get_opt detection "banned_substrings");
    Some (with_is_valid (with_details scannerResult d)
            (negb (JS.has_length (JS.get_opt detection "banned_substrings"))))
  else Some scannerResult.

(** The body of the loop over the requested scanners (lines 80-137). *)
Definition normalize_one (apiData : jsval) (body : ScanRequest)
  (scannerName : string) : option ScannerResult :=
  scannerResult ← scanner_result apiData body scannerName;
  apply_detection apiData scannerName scannerResult.

(** Lines 66-153. *)
Definition normalize (apiData : jsval) (body : ScanRequest)
  : option ScanResponse :=
  scannerResults ← mapM (normalize_one apiData body) (requestedScanners body);
  Some {| original_prompt := prompt body;
          final_sanitized_prompt :=
            JS.or (JS.get_opt apiData "sanitized_prompt") (JStr (prompt body));
          overall_is_valid := every_is_valid scannerResults;
          applied_scanners_results := scannerResults |}.

End Normalizer.

(** ** The heuristic scanner bank (lines 162-336) *)

Module Fallback.
Import Patterns.

Definition hasEmail (prompt : string) : bool := Regex.test emailRegex prompt.
Definition hasPhone (prompt : string) : bool := Regex.test phoneRegex prompt.
Definition hasCreditCard (prompt : string) : bool :=
  Regex.test creditCardRegex prompt.
Definition hasSSN (prompt : string) : bool := Regex.test ssnRegex prompt.
Definition hasName (prompt : string) : bool := Regex.test nameRegex prompt.

Definition hasPII (prompt : string) : bool :=
  hasEmail prompt || hasPhone prompt || hasCreditCard prompt
  || hasSSN prompt || hasName prompt.

Definition toxicWords : list string :=
  [ "shit"; "fuck"; "damn"; "ass"; "idiot"; "stupid" ].

Definition potentialSecrets : list string :=
  [ "api_key"; "password"; "secret"; "token"; "apikey"; "api key";
    "access key"; "private key" ].

(** [(word) => prompt.toLowerCase().includes(word)] *)
Definition mentions (prompt word : string) : bool :=
  includes (toLowerCase prompt) word.

Definition hasToxicity (prompt : string) : bool :=
  existsb (mentions prompt) toxicWords.

Definition hasSecrets (prompt : string) : bool :=
  existsb (mentions prompt) potentialSecrets.

(** Lines 216-223: the five replacements, in this order. *)
Definition redact (prompt : string) : string :=
  Regex.replace nameRegex "[REDACTED_PERSON]"
    (Regex.replace ssnRegex "[REDACTED_SSN]"
       (Regex.replace creditCardRegex "[REDACTED_CC]"
          (Regex.replace phoneRegex "[REDACTED_PHONE]"
             (Regex.replace emailRegex "[REDACTED_EMAIL]" prompt)))).

Definition sanitizedPrompt (prompt : string) : string :=
  if hasPII prompt then redact prompt else prompt.

Definition anonymizeValid (prompt : string) : bool := negb (hasPII prompt).

Definition anonymizeRiskScore (prompt : string) : float :=
  if hasPII prompt then 0.8%float else 0%float.

Definition anonymizeDetails (prompt : string) : jsval :=
  if hasPII prompt then
    JObj [ ("pii_detected", JBool true);
           ("found", JObj [ ("email", JBool (hasEmail prompt));
                            ("phone", JBool (hasPhone prompt));
                            ("creditCard", JBool (hasCreditCard prompt));
                            ("ssn", JBool (hasSSN prompt));
                            ("name", JBool (hasName prompt)) ]) ]
  else JObj [].

Definition toxicityValid (prompt : string) : bool := negb (hasToxicity prompt).

Definition toxicityRiskScore (prompt : string) : float :=
  if hasToxicity prompt then 0.9%float else 0%float.

Definition toxicityDetails (prompt : string) : jsval :=
  if hasToxicity prompt then
    JObj [ ("toxicity_detected", JBool true);
           ("words_found", JArr (JStr <$> List.filter (mentions prompt) toxicWords)) ]
  else JObj [].

Definition secretsValid (prompt : string) : bool := negb (hasSecrets prompt).

Definition secretsRiskScore (prompt : string) : float :=
  if hasSecrets prompt then 0.95%float else 0%float.

Definition secretsDetails (prompt : string) : jsval :=
  if hasSecrets prompt then
    JObj [ ("secrets_detected", JBool true);
           ("potential_matches", JArr (JStr <$> List.filter (mentions prompt) potentialSecrets)) ]
  else JObj [].

(** The stub results of [bansubstrings], [regex] and [code]. *)
Definition mock (scannerName prompt flag : string) : ScannerResult :=
  {| scanner_name := scannerName; input_prompt := prompt;
     sanitized_prompt := JStr prompt; is_valid := true;
     risk_score := JNum 0; details := JObj [ (flag, JBool false) ] |}.

(** The callback of [forEach] (lines 266-325): what it pushes for one
    requested name, nothing for a name it does not know. *)
Definition scan_one (prompt scannerName : string) : option ScannerResult :=
  if scannerName =? "anonymize" then
    Some {| scanner_name := scannerName; input_prompt := prompt;
            sanitized_prompt := JStr (sanitizedPrompt prompt);
            is_valid := anonymizeValid prompt;
            risk_score := JNum (anonymizeRiskScore prompt);
            details := anonymizeDetails prompt |}
  else if scannerName =? "toxicity" then
    Some {| scanner_name := scannerName; input_prompt := prompt;
            sanitized_prompt := JStr prompt;
            is_valid := toxicityValid prompt;
            risk_score := JNum (toxicityRiskScore prompt);
            details := toxicityDetails prompt |}
  else if scannerName =? "secrets" then
    Some {| scanner_name := scannerName; input_prompt := prompt;
            sanitized_prompt := JStr prompt;
            is_valid := secretsValid prompt;
            risk_score := JNum (secretsRiskScore prompt);
            details := secretsDetails prompt |}
  else if scannerName =? "bansubstrings" then
    Some (mock scannerName prompt "substrings_detected")
  else if scannerName =? "regex" then
    Some (mock scannerName prompt "regex_matches_detected")
  else if scannerName =? "code" then
    Some (mock scannerName prompt "code_detected")
  else None.

Definition scannerResults (body : ScanRequest) : list ScannerResult :=
  omap (scan_one (prompt body)) (requestedScanners body).

Definition fallbackResponse (body : ScanRequest) : ScanResponse :=
  {| original_prompt := prompt body;
     final_sanitized_prompt := JStr (sanitizedPrompt (prompt body));
     overall_is_valid := every_is_valid (scannerResults body);
     applied_scanners_results := scannerResults body |}.

End Fallback.

(** ** The handler (lines 29-346) *)

Inductive FetchError : Type :=
| Timeout              (* [AbortSignal.timeout(3000)] fired *)
| ConnectionRefused
| TransportError.

Inductive BackendBody : Type :=
| Unparsable           (* [apiResponse.json()] rejects *)
| Parsed (apiData : jsval).

(** What the single [fetch] of the backend comes to. *)
Inductive RemoteOutcome : Type :=
| FetchFailed (e : FetchError)
| Replied (status : nat) (reply : BackendBody).

(** [apiResponse.ok] *)
Definition ok (status : nat) : bool :=
  (200 <=? status)%nat && (status <=? 299)%nat.

Inductive Response : Type :=
| Verbatim (apiData : jsval)       (* line 62, status 200 *)
| Scanned (response : ScanResponse) (* lines 155 and 338, status 200 *)
| InternalServerError.             (* line 341, status 500 *)

Section Handler.

Variable ToNumber_of : jsval -> option float.

(** The inner [try] block (lines 34-156): [Some] is a response returned
    from inside it; [None] is control reaching the fallback, because
    the reply was not [ok] or because something threw. *)
Definition proxy (body : ScanRequest) (remote : RemoteOutcome)
  : option Response :=
  match remote with
  | FetchFailed _ => None
  | Replied status reply =>
      if ok status then
        match reply with
        | Unparsable => None
        | Parsed apiData =>
            (* [Object.keys(apiData)] and the read below throw alike *)
            results ← JS.get apiData "applied_scanners_results";
            if JS.truthy results && JS.isArray results
            then Some (Verbatim apiData)
            else Scanned <$> normalize ToNumber_of apiData body
        end
      else None
  end.

(** [request] is the parsed request body, [None] when [request.json()]
    rejects. *)
Definition POST (request : option ScanRequest) (remote : RemoteOutcome)
  : Response :=
  match request with
  | None => InternalServerError
  | Some body =>
      match proxy body remote with
      | Some response => response
      | None => Scanned (Fallback.fallbackResponse body)
      end
  end.

End Handler.

(** The JSON form of the responses the handler builds itself. *)
Definition ScannerResult_json (r : ScannerResult) : jsval :=
  JObj [ ("scanner_name", JStr (scanner_name r));
         ("input_prompt", JStr (input_prompt r));
         ("sanitized_prompt", sanitized_prompt r);
         ("is_valid", JBool (is_valid r));
         ("risk_score", risk_score r);
         ("details", details r) ].

Definition ScanResponse_json (r : ScanResponse) : jsval :=
  JObj [ ("original_prompt", JStr (original_prompt r));
         ("final_sanitized_prompt", final_sanitized_prompt r);
         ("overall_is_valid", JBool (overall_is_valid r));
         ("applied_scanners_results",
           JArr (ScannerResult_json <$> applied_scanners_results r)) ].

Definition Response_json (r : Response) : jsval :=
  match r with
  | Verbatim apiData => apiData
  | Scanned response => ScanResponse_json response
  | InternalServerError => JObj [ ("error", JStr "Internal server error") ]
  end.

Definition Response_status (r : Response) : nat :=
  match r with
  | InternalServerError => 500
  | _ => 200
  end.

(** ** The second variant of the route (lines 348-511)

    It keeps the proxy and the fallback of the first variant, but answers
    with one [anonymize] result whatever was requested. A response is the
    object literal handed to [NextResponse.json], with its status. *)

Record Reply : Type := {
  reply_status : nat;
  reply_body : jsval;
}.

(** Line 341, 506 and 592: the 500 answer of the outer [catch]. *)
Definition internal_error : Reply :=
  {| reply_status := 500;
     reply_body := JObj [ ("error", JStr "Internal server error") ] |}.

(** [Math.max(x, y)] on two numbers *)
Definition Math_max (x y : float) : float :=
  if PrimFloat.is_nan x || PrimFloat.is_nan y then nan
  else if (x <? y)%float then y
  else if (y <? x)%float then x
  else if PrimFloat.get_sign x then y else x.

Module V2.
Import Patterns.

(** Lines 401-415: the response built from the backend's payload. The
    first read of [apiData] throws when it is [null]. *)
Definition response (apiData : jsval) (body : ScanRequest) : option jsval :=
  top ← JS.get apiData "sanitized_prompt";
  Some (JObj
    [ ("original_prompt", JStr (prompt body));
      ("final_sanitized_prompt", JS.or top (JStr (prompt body)));
      ("overall_is_valid", JS.or (JS.get_opt apiData "is_valid") (JBool false));
      ("applied_scanners_results",
        JArr [ JObj
          [ ("scanner_name", JStr "anonymize");
            ("input_prompt", JStr (prompt body));
            ("sanitized_prompt", JS.or top (JStr (prompt body)));
            ("is_valid", JS.or (JS.get_opt apiData "is_valid") (JBool false));
            ("risk_score", JS.or (JS.get_opt apiData "risk_score") (JNum 0));
            ("details", JS.or (JS.get_opt apiData "details") (JObj [])) ] ]) ]).

Definition hasPII (prompt : string) : bool :=
  Regex.test emailRegex prompt || Regex.test phoneRegex prompt
  || Regex.test creditCardRegex prompt.

Definition toxicWords : list string :=
  [ "shit"; "fuck"; "damn"; "ass"; "idiot"; "stupid" ].

Definition potentialSecrets : list string :=
  [ "api_key"; "password"; "secret"; "token"; "apikey" ].

Definition hasToxicity (prompt : string) : bool :=
  existsb (Fallback.mentions prompt) toxicWords.

Definition hasSecrets (prompt : string) : bool :=
  existsb (Fallback.mentions prompt) potentialSecrets.

(** Lines 463-471 *)
Definition sanitizedPrompt (prompt : string) : string :=
  if hasPII prompt then
    Regex.replace creditCardRegex "[REDACTED_CC]"
      (Regex.replace phoneRegex "[REDACTED_PHONE]"
         (Regex.replace emailRegex "[REDACTED_EMAIL]" prompt))
  else prompt.

(** Lines 428 and 474-484 *)
Definition isValid (prompt : string) : bool :=
  negb (hasToxicity prompt || hasSecrets prompt).

(** Lines 429 and 470-482: 0.1, raised by each check that triggers. *)
Definition riskScore (prompt : string) : float :=
  let r0 := 0.1%float in
  let r1 := if hasPII prompt then Math_max r0 0.8 else r0 in
  let r2 := if hasToxicity prompt then Math_max r1 0.9 else r1 in
  if hasSecrets prompt then Math_max r2 0.95 else r2.

Definition details (prompt : string) : jsval :=
  JObj ((if hasToxicity prompt
         then [ ("toxicity", JObj [ ("score", JNum 0.9); ("detected", JBool true) ]) ]
         else [])
        ++ (if hasSecrets prompt
            then [ ("secrets", JObj [ ("score", JNum 0.95); ("detected", JBool true) ]) ]
            else [])).

(** Lines 487-501 *)
Definition fallbackResponse (body : ScanRequest) : jsval :=
  JObj
    [ ("original_prompt", JStr (prompt body));
      ("final_sanitized_prompt", JStr (sanitizedPrompt (prompt body)));
      ("overall_is_valid", JBool (isValid (prompt body)));
      ("applied_scanners_results",
        JArr [ JObj
          [ ("scanner_name", JStr "anonymize");
            ("input_prompt", JStr (prompt body));
            ("sanitized_prompt", JStr (sanitizedPrompt (prompt body)));
            ("is_valid", JBool (isValid (prompt body)));
            ("risk_score", JNum (riskScore (prompt body)));
            ("details", details (prompt body)) ] ]) ].

(** The inner [try] block (lines 381-422). *)
Definition proxy (body : ScanRequest) (remote : RemoteOutcome) : option jsval :=
  match remote with
  | FetchFailed _ => None
  | Replied status reply =>
      if ok status then
        match reply with
        | Unparsable => None
        | Parsed apiData => response apiData body
        end
      else None
  end.

Definition POST (request : option ScanRequest) (remote : RemoteOutcome) : Reply :=
  match request with
  | None => internal_error
  | Some body =>
      {| reply_status := 200;
         reply_body := default (fallbackResponse body) (proxy body remote) |}
  end.

End V2.

(** ** The third variant of the route (lines 513-597)

    The plain proxy: no deadline, no inner [try], no fallback. Whatever
    throws reaches the outer [catch]. *)

Module V3.

(** What [NextResponse.json(body, { status })] accepts: a status from 200
    to 599 that is not a null-body status (Fetch, the Response
    constructor); it throws on another one. *)
Definition accepts_status (status : nat) : bool :=
  (200 <=? status)%nat && (status <=? 599)%nat
  && negb (bool_decide (status ∈ [204; 205; 304])).

(** Lines 559-567: the reply was not [ok]. A body that does not parse
    gives the stock message; reading [error] of [null] throws. *)
Definition error_reply (status : nat) (reply : BackendBody) : option Reply :=
  let unknown := JStr "Unknown error occurred" in
  let errorData :=
    match reply with
    | Unparsable => JObj [ ("error", unknown) ]
    | Parsed data => data
    end in
  error ← JS.get errorData "error";
  if accepts_status status
  then Some {| reply_status := status;
               reply_body := JObj [ ("error", JS.or error unknown) ] |}
  else None.

(** Lines 573-587: the same mapping as in the second variant. *)
Definition response (apiData : jsval) (body : ScanRequest) : option jsval :=
  top ← JS.get apiData "sanitized_prompt";
  Some (JObj
    [ ("original_prompt", JStr (prompt body));
      ("final_sanitized_prompt", JS.or top (JStr (prompt body)));
      ("overall_is_valid", JS.or (JS.get_opt apiData "is_valid") (JBool false));
      ("applied_scanners_results",
        JArr [ JObj
          [ ("scanner_name", JStr "anonymize");
            ("input_prompt", JStr (prompt body));
            ("sanitized_prompt", JS.or top (JStr (prompt body)));
            ("is_valid", JS.or (JS.get_opt apiData "is_valid") (JBool false));
            ("risk_score", JS.or (JS.get_opt apiData "risk_score") (JNum 0));
            ("details", JS.or (JS.get_opt apiData "details") (JObj [])) ] ]) ]).

(** The [try] block (lines 542-589): [None] is a throw. *)
Definition attempt (body : ScanRequest) (remote : RemoteOutcome) : option Reply :=
  match remote with
  | FetchFailed _ => None
  | Replied status reply =>
      if ok status then
        match reply with
        | Unparsable => None
        | Parsed apiData =>
            r ← response apiData body;
            Some {| reply_status := 200; reply_body := r |}
        end
      else error_reply status reply
  end.

Definition POST (request : option ScanRequest) (remote : RemoteOutcome) : Reply :=
  match request with
  | None => internal_error
  | Some body => default internal_error (attempt body remote)
  end.

End V3.

(** ** The scanner page (lines 1056-1640, and [app/anonymizer/page.tsx]) *)

Module Page.

Inductive RiskLevel : Type := High | Medium | Low.

(** [getRiskLevel] (lines 1131-1135), with the colour of each level. *)
Definition getRiskLevel (score : float) : RiskLevel * string :=
  if (0.75 <? score)%float then (High, "text-red-400")
  else if (0.4 <? score)%float then (Medium, "text-yellow-400")
  else (Low, "text-green-400").

(** The state update of [handleScannerChange] (lines 1155-1163, and
    lines 49-54 of the anonymizer page). *)
Definition handleScannerChange (prev : list string) (scannerId : string)
  : list string :=
  if bool_decide (scannerId ∈ prev)
  then List.filter (λ s, negb (s =? scannerId)) prev
  else prev ++ [scannerId].

(** [String.prototype.trim] *)
Fixpoint trimStart (s : string) : string :=
  match s with
  | EmptyString => EmptyString
  | String c s' => if Chars.is_space c then trimStart s' else s
  end.

Fixpoint trimEnd (s : string) : string :=
  match s with
  | EmptyString => EmptyString
  | String c s' =>
      match trimEnd s' with
      | EmptyString => if Chars.is_space c then EmptyString else String c EmptyString
      | rest => String c rest
      end
  end.

Definition trim (s : string) : string := trimEnd (trimStart s).

(** The list of a configurable scanner and the text of its input box:
    [customBannedSubstrings] with [currentSubstring], and
    [customRegexPatterns] with [currentRegexPattern]. *)
Record Chips : Type := {
  entries : list string;
  current : string;
}.

(** [handleAddSubstring] (lines 1166-1177) *)
Definition handleAddSubstring (st : Chips) : Chips :=
  if negb (trim (current st) =? "")
     && negb (bool_decide (trim (current st) ∈ entries st))
  then {| entries := entries st ++ [trim (current st)]; current := "" |}
  else st.

(** [handleRemoveSubstring] (lines 1183-1187) *)
Definition handleRemoveSubstring (st : Chips) (subToRemove : string) : Chips :=
  {| entries := List.filter (λ sub, negb (sub =? subToRemove)) (entries st);
     current := current st |}.

(** [handleAddRegexPattern] and [handleRemoveRegexPattern] (lines
    1190-1211) are the same two functions on the other list. *)
Definition handleAddRegexPattern : Chips → Chips := handleAddSubstring.
Definition handleRemoveRegexPattern : Chips → string → Chips :=
  handleRemoveSubstring.

(** The first half of [handleScanPrompt] (lines 1213-1242): the checks,
    and the request body that is sent. *)
Inductive Submission : Type :=
| Refused (error : string)
| Submitted (requestBody : ScanRequest).

Definition handleScanPrompt (prompt : string) (selectedScanners : list string)
  (customBannedSubstrings customRegexPatterns : list string) : Submission :=
  if trim prompt =? "" then Refused "Prompt cannot be empty."
  else if bool_decide (selectedScanners = [])
  then Refused "Please select at least one scanner."
  else Submitted
         {| prompt := prompt;
            scanners := Some selectedScanners;
            banned_substrings_list :=
              if bool_decide ("bansubstrings" ∈ selectedScanners)
                 && negb (bool_decide (customBannedSubstrings = []))
              then Some customBannedSubstrings else None;
            regex_patterns_list :=
              if bool_decide ("regex" ∈ selectedScanners)
                 && negb (bool_decide (customRegexPatterns = []))
              then Some customRegexPatterns else None |}.

(** The second half (lines 1264-1279): what the page keeps of a
    successful reply [data]. Reading [data.sanitized_prompt] throws on
    [null], and the page then shows an error instead. *)
Definition setApiResponse (prompt : string) (data : jsval) : option jsval :=
  top ← JS.get data "sanitized_prompt";
  Some (JObj
    [ ("original_prompt", JStr prompt);
      ("final_sanitized_prompt", JS.or top (JStr prompt));
      ("overall_is_valid", JS.get_opt data "is_valid");
      ("applied_scanners_results",
        JArr [ JObj
          [ ("scanner_name", JStr "anonymize");
            ("input_prompt", JStr prompt);
            ("sanitized_prompt", JS.or top (JStr prompt));
            ("is_valid", JS.get_opt data "is_valid");
            ("risk_score", JS.or (JS.get_opt data "risk_score") (JNum 0));
            ("details", JS.or (JS.get_opt data "details") (JObj [])) ] ]) ]).

End Page.

(** ** Vocabulary of the specification *)

(** [word] occurs in [prompt] up to the case of the letters. *)
Definition occurs_ignoring_case (prompt word : string) : Prop :=
  ∃ pre mid post, prompt = pre +:+ mid +:+ post ∧ toLowerCase mid = word.

(** The closed enumeration of scanner kinds. *)
Definition scannerKinds : list string :=
  [ "anonymize"; "secrets"; "toxicity"; "bansubstrings"; "regex"; "code" ].

Definition is_scanner_kind (name : string) : bool :=
  bool_decide (name ∈ scannerKinds).

(** A list of names with duplicates collapsed, in order of first
    occurrence. *)
Fixpoint collapsed_from (seen names : list string) : list string :=
  match names with
  | [] => []
  | name :: rest =>
      if bool_decide (name ∈ seen) then collapsed_from seen rest
      else name :: collapsed_from (name :: seen) rest
  end.

Definition collapsed (names : list string) : list string :=
  collapsed_from [] names.

(** The remote call failed: the fetch threw (timeout, connection refused,
    transport error), the status is not a success, or the body does not
    parse. *)
Definition backend_failed (remote : RemoteOutcome) : Prop :=
  match remote with
  | FetchFailed _ => True
  | Replied status reply => ok status = false ∨ reply = Unparsable
  end.

(** The scanner names of a response the handler built. *)
Definition scanner_names (response : ScanResponse) : list string :=
  scanner_name <$> applied_scanners_results response.

(** Reading a response as the caller does, from its JSON form: the
    [is_valid] of every entry of [applied_scanners_results]. *)
Definition reported_validities (response : jsval) : list jsval :=
  match JS.get_opt response "applied_scanners_results" with
  | JArr entries => (λ entry, JS.get_opt entry "is_valid") <$> entries
  | _ => []
  end.

Definition is_true (v : jsval) : bool :=
  match v with
  | JBool true => true
  | _ => false
  end.

(** [0 <= x <= 1] on binary64 numbers. *)
Definition in_unit_interval (x : float) : bool :=
  (0 <=? x)%float && (x <=? 1)%float.

(** The sub-object of the payload the normaliser reads for a name. *)
Definition sub_result (apiData : jsval) (scannerName : string) : jsval :=
  match scannerFieldMap scannerName with
  | Some resultField => JS.get_opt apiData resultField
  | None => JNull
  end.

(** [apiData.detection?.kind] *)
Definition detection_of (apiData : jsval) (kind : string) : jsval :=
  JS.get_opt (JS.get_opt apiData "detection") kind.

(** A [details] value as the data model has it: a mapping, or missing. *)
Definition mapping_or_missing (d : jsval) : Prop :=
  match d with
  | JObj _ => True
  | _ => JS.truthy d = false
  end.

(** An item of [detection.toxicity] with a numeric [score]. *)
Definition scored (item : jsval) : Prop :=
  ∃ fields x, item = JObj fields ∧ JS.own fields "score" = JNum x.

(** No character of [s] is in the class [P]. *)
Fixpoint avoids (P : ascii → bool) (s : string) : bool :=
  match s with
  | EmptyString => true
  | String c s' => negb (P c) && avoids P s'
  end.

Definition all_chars : list ascii := ascii_of_nat <$> List.seq 0 256.

(** A syntactic condition under which every match of [r] consumes a
    character of the class [P]. *)
Fixpoint requires (P : ascii → bool) (r : regex) : bool :=
  match r with
  | Empty | WordBoundary => false
  | Chr p => forallb (λ c, implb (p c) (P c)) all_chars
  | Seq r1 r2 => requires P r1 || requires P r2
  | Alt r1 r2 => requires P r1 && requires P r2
  | Rep r1 lo _ => (0 <? lo)%nat && requires P r1
  end.

(** A continuation that fails wherever no character is in [P]. *)
Definition dead (P : ascii → bool) (k : Regex.Continuation) : Prop :=
  ∀ w s, avoids P s = true → k w s = None.

(** A matcher that, where no character is in [P], fails when its
    continuation is dead: it hands its continuation a rest of the input. *)
Definition passes_dead (P : ascii → bool) (m : Regex.Matcher) : Prop :=
  ∀ w s k, avoids P s = true → dead P k → m w s k = None.

(** A matcher that sees its continuation only through its results. *)
Definition extensional (m : Regex.Matcher) : Prop :=
  ∀ w s k1 k2, (∀ w' s', k1 w' s' = k2 w' s') → m w s k1 = m w s k2.

(** The five placeholder tokens of the redaction. *)
Definition placeholders : list string :=
  [ "[REDACTED_EMAIL]"; "[REDACTED_PHONE]"; "[REDACTED_CC]";
    "[REDACTED_SSN]"; "[REDACTED_PERSON]" ].

(** A text without anything but whitespace. *)
Definition whitespace_only (s : string) : bool := avoids (λ c, negb (Chars.is_space c)) s.

(** The invariant of a list of chips: no entry twice, every entry
    trimmed and not empty. *)
Definition chips_ok (entries : list string) : Prop :=
  NoDup entries ∧ Forall (λ t, t ≠ "" ∧ Page.trim t = t) entries.

(** * Properties *)

(** ** Strings *)

Lemma toLowerCase_app (a b : string) :
  toLowerCase (a +:+ b) = toLowerCase a +:+ toLowerCase b.
Proof. induction a as [|c a IH]; simpl; [reflexivity | by rewrite IH]. Qed.

Lemma prefix_app (w post : string) : String.prefix w (w +:+ post) = true.
Proof.
  induction w as [|c w IH]; simpl.
  - by destruct post.
  - destruct (ascii_dec c c); [exact IH | done].
Qed.

Lemma prefix_inv (w s : string) :
  String.prefix w s = true → ∃ post, s = w +:+ post.
Proof.
  revert s; induction w as [|c w IH]; intros s H.
  - by exists s.
  - destruct s as [|c' s]; simpl in H; [done|].
    destruct (ascii_dec c c') as [->|]; [|done].
    destruct (IH _ H) as [post ->]. by exists post.
Qed.

Lemma includes_prefix (s w : string) :
  String.prefix w s = true → includes s w = true.
Proof. intros H. destruct s; cbn [includes]; by rewrite H. Qed.

Lemma includes_app (pre w post : string) :
  includes (pre +:+ w +:+ post) w = true.
Proof.
  induction pre as [|c pre IH].
  - change ("" +:+ w +:+ post) with (w +:+ post).
    apply includes_prefix, prefix_app.
  - change (String c pre +:+ w +:+ post) with (String c (pre +:+ w +:+ post)).
    cbn [includes].
    destruct (String.prefix w (String c (pre +:+ w +:+ post))); [done | exact IH].
Qed.

Lemma includes_inv (s w : string) :
  includes s w = true → ∃ pre post, s = pre +:+ w +:+ post.
Proof.
  induction s as [|c s IH]; cbn [includes]; intros H.
  - destruct (String.prefix w "") eqn:E; [|done].
    apply prefix_inv in E as [post E]. by exists "", post.
  - destruct (String.prefix w (String c s)) eqn:E.
    + apply prefix_inv in E as [post E]. by exists "", post.
    + destruct (IH H) as (pre & post & ->). by exists (String c pre), post.
Qed.

(** [includes] is the substring test. *)
Lemma includes_spec (s w : string) :
  includes s w = true ↔ ∃ pre post, s = pre +:+ w +:+ post.
Proof.
  split; [apply includes_inv|]. intros (pre & post & ->). apply includes_app.
Qed.

(** [toLowerCase] works character by character, so a split of the
    lowered string is the image of a split of the string. *)
Lemma toLowerCase_split (s a b : string) :
  toLowerCase s = a +:+ b →
  ∃ a' b', s = a' +:+ b' ∧ toLowerCase a' = a ∧ toLowerCase b' = b.
Proof.
  revert s; induction a as [|c a IH]; intros s H.
  - by exists "", s.
  - destruct s as [|c' s]; simpl in H; [done|].
    injection H as Hc H. destruct (IH _ H) as (a' & b' & -> & <- & <-).
    exists (String c' a'), b'. simpl. by rewrite Hc.
Qed.

Lemma mentions_spec (prompt word : string) :
  Fallback.mentions prompt word = true ↔ occurs_ignoring_case prompt word.
Proof.
  unfold Fallback.mentions, occurs_ignoring_case. rewrite includes_spec. split.
  - intros (pre & post & E).
    apply toLowerCase_split in E as (pre' & rest & -> & _ & E).
    apply toLowerCase_split in E as (mid & post' & -> & E & _).
    by exists pre', mid, post'.
  - intros (pre & mid & post & -> & <-).
    exists (toLowerCase pre), (toLowerCase post).
    by rewrite !toLowerCase_app.
Qed.

(** ** The heuristic bank, scanner by scanner *)

Lemma scan_one_name (prompt scannerName : string) (e : ScannerResult) :
  Fallback.scan_one prompt scannerName = Some e → scanner_name e = scannerName.
Proof.
  unfold Fallback.scan_one, Fallback.mock.
  repeat case_match; intros [= <-]; reflexivity.
Qed.

Lemma scan_one_secrets (prompt : string) :
  Fallback.scan_one prompt "secrets" =
    Some {| scanner_name := "secrets"; input_prompt := prompt;
            sanitized_prompt := JStr prompt;
            is_valid := Fallback.secretsValid prompt;
            risk_score := JNum (Fallback.secretsRiskScore prompt);
            details := Fallback.secretsDetails prompt |}.
Proof. reflexivity. Qed.

Lemma fallback_entry (body : ScanRequest) (e : ScannerResult) :
  e ∈ applied_scanners_results (Fallback.fallbackResponse body) →
  scanner_name e ∈ requestedScanners body
  ∧ Fallback.scan_one (prompt body) (scanner_name e) = Some e.
Proof.
  cbn [applied_scanners_results Fallback.fallbackResponse].
  unfold Fallback.scannerResults. rewrite list_elem_of_omap.
  intros (name & Hin & Hone).
  by rewrite (scan_one_name _ _ _ Hone).
Qed.

Lemma hasSecrets_spec (prompt : string) :
  Fallback.hasSecrets prompt = true ↔
  ∃ word, word ∈ Fallback.potentialSecrets
          ∧ includes (toLowerCase prompt) word = true.
Proof.
  unfold Fallback.hasSecrets. rewrite existsb_exists.
  split; intros (word & Hin & H); exists word;
    (split; [by apply list_elem_of_In | exact H]).
Qed.

(** C7. In the fallback path the [secrets] result of a prompt in which
    "password" occurs, whatever the case of its letters, has
    [is_valid = false], [risk_score = 0.95], "password" among
    [details.potential_matches], and the prompt itself as
    [sanitized_prompt]. In general the scanner triggers exactly when the
    lowercased prompt contains one of the eight keywords, and [is_valid]
    is the negation of that. *)
Theorem secrets_scanner_flags_keywords (body : ScanRequest) (e : ScannerResult) :
  e ∈ applied_scanners_results (Fallback.fallbackResponse body) →
  scanner_name e = "secrets" →
  (occurs_ignoring_case (prompt body) "password" →
     is_valid e = false
     ∧ risk_score e = JNum 0.95
     ∧ (∃ matches, JS.get (details e) "potential_matches" = Some (JArr matches)
                   ∧ JStr "password" ∈ matches)
     ∧ sanitized_prompt e = JStr (prompt body))
  ∧ (is_valid e = false ↔
     ∃ word, word ∈ [ "api_key"; "password"; "secret"; "token"; "apikey";
                      "api key"; "access key"; "private key" ]
             ∧ includes (toLowerCase (prompt body)) word = true)
  ∧ is_valid e = negb (Fallback.hasSecrets (prompt body))
  ∧ sanitized_prompt e = JStr (prompt body).
Proof.
  intros Hin Hname. apply fallback_entry in Hin as [_ Hone].
  rewrite Hname, scan_one_secrets in Hone. injection Hone as <-.
  cbn [is_valid risk_score details sanitized_prompt].
  unfold Fallback.secretsValid, Fallback.secretsRiskScore, Fallback.secretsDetails.
  split; [|split; [|done]].
  - intros Hocc. apply mentions_spec in Hocc.
    assert (Fallback.hasSecrets (prompt body) = true) as ->.
    { apply hasSecrets_spec. exists "password". split; [|exact Hocc].
      apply list_elem_of_In. simpl. tauto. }
    repeat split. eexists. split; [reflexivity|].
    apply list_elem_of_fmap. exists "password". split; [done|].
    apply list_elem_of_In, filter_In. split; [|exact Hocc].
    simpl. tauto.
  - rewrite negb_false_iff. apply hasSecrets_spec.
Qed.

Lemma secrets_scanner_flags_keywords_witness :
  let body := {| prompt := "my Password is x"; scanners := Some ["secrets"];
                 banned_substrings_list := None; regex_patterns_list := None |} in
  ∃ e, applied_scanners_results (Fallback.fallbackResponse body) = [e]
       ∧ scanner_name e = "secrets"
       ∧ occurs_ignoring_case (prompt body) "password"
       ∧ is_valid e = false
       ∧ risk_score e = JNum 0.95.
Proof.
  intros body.
  pose (e := {| scanner_name := "secrets"; input_prompt := "my Password is x";
                sanitized_prompt := JStr "my Password is x";
                is_valid := false; risk_score := JNum 0.95;
                details := JObj [ ("secrets_detected", JBool true);
                                  ("potential_matches", JArr [JStr "password"]) ] |}).
  assert (applied_scanners_results (Fallback.fallbackResponse body) = [e]) as Hres
    by (vm_compute; reflexivity).
  assert (occurs_ignoring_case (prompt body) "password") as Hocc
    by (exists "my ", "Password", " is x"; split; reflexivity).
  assert (e ∈ applied_scanners_results (Fallback.fallbackResponse body)) as Hin
    by (rewrite Hres; apply list_elem_of_here).
  exists e. split; [exact Hres|]. split; [reflexivity|]. split; [exact Hocc|].
  destruct (secrets_scanner_flags_keywords body e Hin eq_refl) as [H _].
  destruct (H Hocc) as (Hv & Hr & _). split; assumption.
Defined.

(** ** The handler, path by path *)

Section Paths.

Variable ToNumber_of : jsval → option float.

(** What the inner [try] block can return, and from what reply. *)
Lemma proxy_cases (body : ScanRequest) (remote : RemoteOutcome) :
  match proxy ToNumber_of body remote with
  | None => True
  | Some (Verbatim apiData) =>
      ∃ status entries,
        remote = Replied status (Parsed apiData) ∧ ok status = true
        ∧ JS.get apiData "applied_scanners_results" = Some (JArr entries)
  | Some (Scanned response) =>
      ∃ status apiData,
        remote = Replied status (Parsed apiData) ∧ ok status = true
        ∧ normalize ToNumber_of apiData body = Some response
  | Some InternalServerError => False
  end.
Proof.
  destruct remote as [e | status [|apiData]]; cbn [proxy]; [done|..];
    destruct (ok status) eqn:Hok; try done.
  destruct (JS.get apiData "applied_scanners_results") as [results|] eqn:Hget;
    cbn [mbind option_bind]; [|done].
  destruct results; cbn [JS.truthy JS.isArray andb];
    rewrite ?andb_false_r; cbn [fmap option_fmap option_map];
    try (destruct (normalize _ _ _) eqn:Hn; [by exists status, apiData | done]).
  by exists status, items.
Qed.

Lemma proxy_failed (body : ScanRequest) (remote : RemoteOutcome) :
  backend_failed remote → proxy ToNumber_of body remote = None.
Proof.
  destruct remote as [e | status reply]; cbn [proxy backend_failed]; [done|].
  intros [-> | ->]; [done | by destruct (ok status)].
Qed.

Lemma apply_detection_name (apiData : jsval) (scannerName : string)
  (r e : ScannerResult) :
  apply_detection ToNumber_of apiData scannerName r = Some e →
  scanner_name e = scanner_name r.
Proof.
  unfold apply_detection. intros H.
  repeat case_match; simplify_option_eq; reflexivity.
Qed.

Lemma scanner_result_name (apiData : jsval) (body : ScanRequest)
  (scannerName : string) (r : ScannerResult) :
  scanner_result apiData body scannerName = Some r →
  scanner_name r = scannerName.
Proof.
  unfold scanner_result. intros H.
  destruct (match scannerFieldMap scannerName with
            | Some resultField => JS.get apiData resultField
            | None => Some JNull
            end) as [result|]; [|done].
  cbn [mbind option_bind] in H.
  destruct (JS.truthy result); [by injection H as <-|].
  destruct (JS.get apiData "sanitized_prompt"); [|done].
  by injection H as <-.
Qed.

Lemma normalize_one_name (apiData : jsval) (body : ScanRequest)
  (scannerName : string) (e : ScannerResult) :
  normalize_one ToNumber_of apiData body scannerName = Some e →
  scanner_name e = scannerName.
Proof.
  unfold normalize_one. intros H.
  destruct (scanner_result _ _ _) as [r|] eqn:Hr; [|done].
  cbn [mbind option_bind] in H.
  rewrite (apply_detection_name _ _ _ _ H). by eapply scanner_result_name.
Qed.

(** The normaliser answers for every requested name, in request order. *)
Lemma normalize_names (apiData : jsval) (body : ScanRequest)
  (response : ScanResponse) :
  normalize ToNumber_of apiData body = Some response →
  scanner_names response = requestedScanners body.
Proof.
  unfold normalize, scanner_names. intros H.
  destruct (mapM _ _) as [results|] eqn:Hm; [|done].
  injection H as <-. cbn [applied_scanners_results].
  apply mapM_Some_1 in Hm.
  induction Hm as [|name e names results He _ IH]; [done|].
  cbn [fmap list_fmap]. f_equal; [by eapply normalize_one_name | exact IH].
Qed.

Lemma normalize_overall (apiData : jsval) (body : ScanRequest)
  (response : ScanResponse) :
  normalize ToNumber_of apiData body = Some response →
  overall_is_valid response = forallb is_valid (applied_scanners_results response).
Proof.
  unfold normalize. intros H.
  destruct (mapM _ _) as [results|]; [|done]. by injection H as <-.
Qed.

End Paths.

(** Case analysis on a comparison of a scanner name with a literal. *)
Ltac name_cases name :=
  repeat match goal with
         | |- context [String.eqb name ?lit] =>
             destruct (String.eqb_spec name lit) as [->|?]
         end.

Lemma scan_one_known (prompt scannerName : string) :
  is_scanner_kind scannerName
  = bool_decide (is_Some (Fallback.scan_one prompt scannerName)).
Proof.
  unfold Fallback.scan_one. name_cases scannerName;
    try (symmetry; apply bool_decide_eq_true; eexists; reflexivity).
  transitivity false; [|symmetry; apply bool_decide_eq_false; by intros [? ?]].
  apply bool_decide_eq_false. unfold scannerKinds.
  rewrite !elem_of_cons, elem_of_nil. tauto.
Qed.

(** The fallback answers for the requested names it knows, in request
    order. *)
Lemma fallback_names (body : ScanRequest) :
  scanner_names (Fallback.fallbackResponse body)
  = List.filter is_scanner_kind (requestedScanners body).
Proof.
  unfold scanner_names, Fallback.fallbackResponse, Fallback.scannerResults.
  cbn [applied_scanners_results].
  induction (requestedScanners body) as [|name names IH]; [done|].
  cbn [omap list_omap List.filter].
  rewrite (scan_one_known (prompt body) name).
  destruct (Fallback.scan_one (prompt body) name) as [e|] eqn:He.
  - rewrite bool_decide_eq_true_2 by (by eexists).
    cbn [fmap list_fmap]. rewrite (scan_one_name _ _ _ He). f_equal. exact IH.
  - rewrite bool_decide_eq_false_2 by (by intros [? ?]). exact IH.
Qed.

Lemma reported_validities_built (response : ScanResponse) :
  reported_validities (ScanResponse_json response)
  = (λ e, JBool (is_valid e)) <$> applied_scanners_results response.
Proof.
  unfold reported_validities, ScanResponse_json. cbn.
  induction (applied_scanners_results response) as [|e es IH]; [done|].
  cbn. by rewrite IH.
Qed.

Lemma forallb_reported (results : list ScannerResult) :
  forallb is_true ((λ e, JBool (is_valid e)) <$> results)
  = forallb is_valid results.
Proof.
  induction results as [|e es IH]; [done|].
  cbn. rewrite IH. by destruct (is_valid e).
Qed.

(** The three ways the handler answers a request whose body parsed. *)
Lemma POST_cases (ToNumber_of : jsval → option float) (body : ScanRequest)
  (remote : RemoteOutcome) :
  (∃ apiData status entries,
     POST ToNumber_of (Some body) remote = Verbatim apiData
     ∧ remote = Replied status (Parsed apiData) ∧ ok status = true
     ∧ JS.get apiData "applied_scanners_results" = Some (JArr entries))
  ∨ (∃ response status apiData,
       POST ToNumber_of (Some body) remote = Scanned response
       ∧ remote = Replied status (Parsed apiData) ∧ ok status = true
       ∧ normalize ToNumber_of apiData body = Some response)
  ∨ (POST ToNumber_of (Some body) remote = Scanned (Fallback.fallbackResponse body)
     ∧ proxy ToNumber_of body remote = None).
Proof.
  cbn [POST]. pose proof (proxy_cases ToNumber_of body remote) as Hp.
  destruct (proxy ToNumber_of body remote) as [[apiData|response|]|].
  - left. destruct Hp as (status & entries & H). by exists apiData, status, entries.
  - right; left. destruct Hp as (status & apiData & H).
    by exists response, status, apiData.
  - destruct Hp.
  - right; right. done.
Qed.

Lemma singleton_names (results : list ScannerResult) (name : string) :
  scanner_name <$> results = [name] →
  ∃ e, results = [e] ∧ scanner_name e = name.
Proof.
  destruct results as [|e [|e' rest]]; intros [= H]. by exists e.
Qed.

(** ** The claims about the handler as a whole *)

(** C1 (amended). Every response the handler builds itself, through the
    normaliser or through the fallback, has [overall_is_valid] equal to
    the conjunction of the [is_valid] of the entries of
    [applied_scanners_results] (true for no entry), in the record and in
    its JSON form. The handler answers otherwise only with the 500 error,
    when the request body does not parse, or with the backend's payload
    unchanged, when that payload already carries an
    [applied_scanners_results] array; such a payload is not aggregated
    again. *)
Theorem overall_is_valid_aggregates (ToNumber_of : jsval → option float)
  (request : option ScanRequest) (remote : RemoteOutcome) :
  match POST ToNumber_of request remote with
  | Scanned response =>
      overall_is_valid response
      = forallb is_valid (applied_scanners_results response)
      ∧ JS.get_opt (ScanResponse_json response) "overall_is_valid"
        = JBool (forallb is_true (reported_validities (ScanResponse_json response)))
  | Verbatim apiData =>
      ∃ status entries,
        remote = Replied status (Parsed apiData) ∧ ok status = true
        ∧ JS.get apiData "applied_scanners_results" = Some (JArr entries)
  | InternalServerError => request = None
  end.
Proof.
  assert (∀ response,
            overall_is_valid response
            = forallb is_valid (applied_scanners_results response) →
            overall_is_valid response
            = forallb is_valid (applied_scanners_results response)
            ∧ JS.get_opt (ScanResponse_json response) "overall_is_valid"
              = JBool (forallb is_true
                         (reported_validities (ScanResponse_json response))))
    as Hjson.
  { intros response H. split; [exact H|].
    rewrite reported_validities_built, forallb_reported, <- H. reflexivity. }
  destruct request as [body|]; cbn [POST]; [|reflexivity].
  pose proof (proxy_cases ToNumber_of body remote) as Hp.
  destruct (proxy ToNumber_of body remote) as [[apiData|response|]|].
  - exact Hp.
  - destruct Hp as (status & apiData & _ & _ & Hn).
    apply Hjson. by eapply normalize_overall.
  - destruct Hp.
  - by apply Hjson.
Qed.

(** C1, as stated, fails: a backend reply that already has an
    [applied_scanners_results] array is returned as it is, here with
    [overall_is_valid = true] over an entry with [is_valid = false]. *)
Lemma verbatim_reply_counterexample :
  let request :=
    Some {| prompt := "you idiot"; scanners := Some ["toxicity"];
            banned_substrings_list := None; regex_patterns_list := None |} in
  let apiData :=
    JObj [ ("original_prompt", JStr "you idiot");
           ("final_sanitized_prompt", JStr "you idiot");
           ("overall_is_valid", JBool true);
           ("applied_scanners_results",
             JArr [ JObj [ ("scanner_name", JStr "toxicity");
                           ("input_prompt", JStr "you idiot");
                           ("sanitized_prompt", JStr "you idiot");
                           ("is_valid", JBool false);
                           ("risk_score", JNum 0.9);
                           ("details", JObj []) ] ]) ] in
  (∀ ToNumber_of,
     POST ToNumber_of request (Replied 200 (Parsed apiData)) = Verbatim apiData)
  ∧ JS.get_opt (Response_json (Verbatim apiData)) "overall_is_valid" = JBool true
  ∧ reported_validities (Response_json (Verbatim apiData)) = [JBool false]
  ∧ forallb is_true (reported_validities (Response_json (Verbatim apiData))) = false.
Proof. repeat split. Qed.

(** C2 (amended). A response built by the normaliser has one entry per
    requested name, in request order, duplicates and unknown names
    included, each entry under the name it was requested by; a response
    built by the fallback has one entry per requested name that is a
    scanner kind, in request order, duplicates included, and skips the
    names that are not. *)
Theorem applied_scanners_follow_request (ToNumber_of : jsval → option float)
  (body : ScanRequest) (remote : RemoteOutcome) :
  match POST ToNumber_of (Some body) remote with
  | Scanned response =>
      (proxy ToNumber_of body remote = Some (Scanned response)
       ∧ scanner_names response = requestedScanners body)
      ∨ (proxy ToNumber_of body remote = None
         ∧ scanner_names response
           = List.filter is_scanner_kind (requestedScanners body))
  | Verbatim apiData => proxy ToNumber_of body remote = Some (Verbatim apiData)
  | InternalServerError => False
  end.
Proof.
  cbn [POST]. pose proof (proxy_cases ToNumber_of body remote) as Hp.
  destruct (proxy ToNumber_of body remote) as [[apiData|response|]|].
  - reflexivity.
  - left. split; [reflexivity|].
    destruct Hp as (status & apiData & _ & _ & Hn). by eapply normalize_names.
  - destruct Hp.
  - right. split; [reflexivity | apply fallback_names].
Qed.

(** C2, as stated, fails: a name requested twice is answered twice, and
    the normaliser answers for a name that is no scanner kind. *)
Lemma duplicate_and_unknown_names_counterexample :
  let twice :=
    {| prompt := "hi"; scanners := Some ["anonymize"; "anonymize"];
       banned_substrings_list := None; regex_patterns_list := None |} in
  let unknown :=
    {| prompt := "hi"; scanners := Some ["bogus"];
       banned_substrings_list := None; regex_patterns_list := None |} in
  let legacy := JObj [ ("sanitized_prompt", JStr "hi"); ("is_valid", JBool true) ] in
  (∀ ToNumber_of, ∃ response,
     POST ToNumber_of (Some twice) (FetchFailed ConnectionRefused) = Scanned response
     ∧ scanner_names response = ["anonymize"; "anonymize"])
  ∧ collapsed (requestedScanners twice) = ["anonymize"]
  ∧ (∀ ToNumber_of, ∃ response,
       POST ToNumber_of (Some unknown) (Replied 200 (Parsed legacy)) = Scanned response
       ∧ scanner_names response = ["bogus"])
  ∧ is_scanner_kind "bogus" = false.
Proof.
  repeat split; intros; eexists; split; reflexivity.
Qed.

(** C3. When the single call of the backend fails (the fetch throws on a
    timeout, a refused connection or another transport error, the status
    is not a success, or the body does not parse) the handler answers
    with status 200 and the response of the heuristic scanner bank, not
    with an error. *)
Theorem backend_failure_falls_back (ToNumber_of : jsval → option float)
  (body : ScanRequest) (remote : RemoteOutcome) :
  backend_failed remote →
  POST ToNumber_of (Some body) remote = Scanned (Fallback.fallbackResponse body)
  ∧ Response_status (POST ToNumber_of (Some body) remote) = 200.
Proof.
  intros Hfail. cbn [POST]. by rewrite (proxy_failed _ _ _ Hfail).
Qed.

Lemma backend_failure_falls_back_witness :
  let body :=
    {| prompt := "This plan is fine."; scanners := Some ["secrets"; "toxicity"];
       banned_substrings_list := None; regex_patterns_list := None |} in
  Forall (λ remote,
            backend_failed remote
            ∧ ∀ ToNumber_of,
                POST ToNumber_of (Some body) remote
                = Scanned (Fallback.fallbackResponse body))
    [ FetchFailed Timeout; FetchFailed ConnectionRefused;
      Replied 503 (Parsed (JObj [ ("error", JStr "unavailable") ]));
      Replied 200 Unparsable ].
Proof.
  intros body.
  repeat apply List.Forall_cons; try apply List.Forall_nil; cbv beta;
    lazymatch goal with
    | |- backend_failed ?remote ∧ _ =>
        assert (backend_failed remote) as Hfail
          by (cbn; first [ exact I | left; reflexivity | right; reflexivity ]);
        split; [exact Hfail|];
        intros ToNumber_of;
        exact (proj1 (backend_failure_falls_back ToNumber_of body remote Hfail))
    end.
Defined.

(** C6 (amended). A request without a [scanners] field is handled as the
    same request with [scanners = ["anonymize"]] (for the same outcome
    of the backend call): every response the handler builds for it has
    exactly one entry, named [anonymize]. An empty [scanners] list is
    not replaced by the default: the response then has no entry and
    [overall_is_valid = true]. *)
Theorem absent_scanners_default (ToNumber_of : jsval → option float)
  (p : string) (bl rl : option (list string)) (remote : RemoteOutcome) :
  let absent := {| prompt := p; scanners := None;
                   banned_substrings_list := bl; regex_patterns_list := rl |} in
  let explicit := {| prompt := p; scanners := Some ["anonymize"];
                     banned_substrings_list := bl; regex_patterns_list := rl |} in
  let empty := {| prompt := p; scanners := Some [];
                  banned_substrings_list := bl; regex_patterns_list := rl |} in
  POST ToNumber_of (Some absent) remote = POST ToNumber_of (Some explicit) remote
  ∧ match POST ToNumber_of (Some absent) remote with
    | Scanned response =>
        ∃ e, applied_scanners_results response = [e]
             ∧ scanner_name e = "anonymize"
    | Verbatim apiData => ∃ status, remote = Replied status (Parsed apiData)
    | InternalServerError => False
    end
  ∧ match POST ToNumber_of (Some empty) remote with
    | Scanned response =>
        applied_scanners_results response = []
        ∧ overall_is_valid response = true
    | Verbatim apiData => ∃ status, remote = Replied status (Parsed apiData)
    | InternalServerError => False
    end.
Proof.
  intros absent explicit empty. split; [reflexivity|]. split.
  - destruct (POST_cases ToNumber_of absent remote)
      as [(apiData & status & ? & -> & -> & _)
         | [(response & ? & ? & -> & _ & _ & Hn) | [-> _]]].
    + by exists status.
    + apply singleton_names. apply (normalize_names _ _ _ _ Hn).
    + apply singleton_names. apply (fallback_names absent).
  - destruct (POST_cases ToNumber_of empty remote)
      as [(apiData & status & ? & -> & -> & _)
         | [(response & ? & ? & -> & _ & _ & Hn) | [-> _]]].
    + by exists status.
    + pose proof (normalize_names _ _ _ _ Hn) as Hnames.
      pose proof (normalize_overall _ _ _ _ Hn) as Hall.
      unfold scanner_names in Hnames.
      destruct (applied_scanners_results response) eqn:E; [|done].
      by rewrite Hall.
    + done.
Qed.

(** C6, as stated, fails: with [scanners = []] the response has no
    entry, where [scanners = ["anonymize"]] gives one. *)
Lemma empty_scanners_counterexample :
  let empty := {| prompt := "hi"; scanners := Some [];
                  banned_substrings_list := None; regex_patterns_list := None |} in
  let explicit := {| prompt := "hi"; scanners := Some ["anonymize"];
                     banned_substrings_list := None; regex_patterns_list := None |} in
  (∀ ToNumber_of, ∃ response,
     POST ToNumber_of (Some empty) (FetchFailed ConnectionRefused) = Scanned response
     ∧ applied_scanners_results response = [])
  ∧ (∀ ToNumber_of, ∃ response,
       POST ToNumber_of (Some explicit) (FetchFailed ConnectionRefused) = Scanned response
       ∧ scanner_names response = ["anonymize"]).
Proof.
  split; intros; eexists; split; reflexivity.
Qed.

(** ** Risk scores *)

Section DetectionKeeps.

Variable ToNumber_of : jsval → option float.

(** The detection rules touch [details] and [is_valid] only. *)
Lemma apply_detection_keeps (apiData : jsval) (scannerName : string)
  (r e : ScannerResult) :
  apply_detection ToNumber_of apiData scannerName r = Some e →
  risk_score e = risk_score r ∧ sanitized_prompt e = sanitized_prompt r.
Proof.
  unfold apply_detection. intros H.
  repeat case_match; simplify_option_eq; split; reflexivity.
Qed.

Lemma scanner_result_inv (apiData : jsval) (body : ScanRequest)
  (scannerName : string) (r : ScannerResult) :
  scanner_result apiData body scannerName = Some r →
  (JS.truthy (sub_result apiData scannerName) = true
   ∧ sanitized_prompt r
     = JS.or (JS.get_opt (sub_result apiData scannerName) "sanitized_prompt")
         (JS.or (JS.get_opt apiData "sanitized_prompt") (JStr (prompt body)))
   ∧ risk_score r
     = JS.or (JS.get_opt (sub_result apiData scannerName) "risk_score") (JNum 0)
   ∧ details r
     = JS.or (JS.get_opt (sub_result apiData scannerName) "details") (JObj []))
  ∨ (JS.truthy (sub_result apiData scannerName) = false
     ∧ sanitized_prompt r
       = JS.or (JS.get_opt apiData "sanitized_prompt") (JStr (prompt body))
     ∧ risk_score r
       = (if scannerName =? "anonymize"
          then JS.or (JS.get_opt apiData "risk_score") (JNum 0) else JNum 0)
     ∧ details r = JObj []).
Proof.
  unfold scanner_result, sub_result, JS.get_opt. intros H.
  destruct (scannerFieldMap scannerName) as [resultField|].
  - destruct (JS.get apiData resultField) as [result|] eqn:Hget; [|done].
    cbn [mbind option_bind default] in *.
    destruct (JS.truthy result) eqn:Ht.
    + left. by injection H as <-.
    + right. destruct (JS.get apiData "sanitized_prompt"); [|done].
      by injection H as <-.
  - cbn [mbind option_bind JS.truthy] in *. right.
    destruct (JS.get apiData "sanitized_prompt"); [|done].
    by injection H as <-.
Qed.

End DetectionKeeps.

Lemma or_cases (a b : jsval) :
  (JS.truthy a = true ∧ JS.or a b = a) ∨ (JS.truthy a = false ∧ JS.or a b = b).
Proof. unfold JS.or. destruct (JS.truthy a); [by left | by right]. Qed.

(** C5 (amended). In the fallback path every [risk_score] is one of 0,
    0.8, 0.9 and 0.95, so it lies in [0, 1]. In the normaliser path the
    [risk_score] of an entry is 0 or a truthy value read as it is under
    the key [risk_score] of the backend's payload (of the payload itself
    or of the scanner's sub-object): nothing clamps it. *)
Theorem fallback_risk_scores_in_unit_interval (body : ScanRequest) :
  Forall (λ e, ∃ x, risk_score e = JNum x
                    ∧ x ∈ [ 0; 0.8; 0.9; 0.95 ]%float
                    ∧ in_unit_interval x = true)
    (applied_scanners_results (Fallback.fallbackResponse body))
  ∧ ∀ ToNumber_of apiData scannerName,
      match normalize_one ToNumber_of apiData body scannerName with
      | Some e =>
          risk_score e = JNum 0
          ∨ (JS.truthy (risk_score e) = true
             ∧ ∃ holder,
                 (holder = apiData ∨ holder = sub_result apiData scannerName)
                 ∧ risk_score e = JS.get_opt holder "risk_score")
      | None => True
      end.
Proof.
  split.
  - apply Forall_forall. intros e Hin. apply fallback_entry in Hin as [_ Hone].
    revert Hone. generalize (scanner_name e) as name. intros name.
    unfold Fallback.scan_one, Fallback.mock,
      Fallback.anonymizeRiskScore, Fallback.toxicityRiskScore,
      Fallback.secretsRiskScore.
    repeat case_match; intros [= <-]; cbn [risk_score];
      eexists; (split; [reflexivity|]);
      (split; [apply list_elem_of_In; simpl; tauto | reflexivity]).
  - intros ToNumber_of apiData scannerName.
    destruct (normalize_one _ _ _ _) as [e|] eqn:He; [|done].
    unfold normalize_one in He.
    destruct (scanner_result _ _ _) as [r|] eqn:Hr; [|done].
    cbn [mbind option_bind] in He.
    apply apply_detection_keeps in He as [-> _].
    apply scanner_result_inv in Hr as [(_ & _ & -> & _) | (_ & _ & -> & _)].
    + destruct (or_cases (JS.get_opt (sub_result apiData scannerName) "risk_score")
                  (JNum 0)) as [[Ht ->] | [_ ->]]; [right | by left].
      split; [exact Ht|]. exists (sub_result apiData scannerName). by split; [right|].
    + destruct (scannerName =? "anonymize"); [|by left].
      destruct (or_cases (JS.get_opt apiData "risk_score") (JNum 0))
        as [[Ht ->] | [_ ->]]; [right | by left].
      split; [exact Ht|]. exists apiData. by split; [left|].
Qed.

(** C5, as stated, fails: the normaliser copies a backend [risk_score] of
    7.5 into the entry. *)
Lemma unclamped_risk_score_counterexample :
  let body := {| prompt := "hi"; scanners := Some ["anonymize"];
                 banned_substrings_list := None; regex_patterns_list := None |} in
  let legacy := JObj [ ("sanitized_prompt", JStr "hi");
                       ("is_valid", JBool false);
                       ("risk_score", JNum 7.5) ] in
  (∀ ToNumber_of, ∃ response e,
     POST ToNumber_of (Some body) (Replied 200 (Parsed legacy)) = Scanned response
     ∧ applied_scanners_results response = [e]
     ∧ risk_score e = JNum 7.5)
  ∧ in_unit_interval 7.5 = false.
Proof.
  split; [|reflexivity]. intros. do 2 eexists. repeat split.
Qed.

(** ** What a pattern needs in order to match *)

Lemma all_chars_complete (c : ascii) : In c all_chars.
Proof.
  unfold all_chars. rewrite <- (ascii_nat_embedding c).
  apply in_map, in_seq. pose proof (nat_ascii_bounded c). lia.
Qed.

Lemma avoids_tail (P : ascii → bool) (c : ascii) (s : string) :
  avoids P (String c s) = true → P c = false ∧ avoids P s = true.
Proof. cbn [avoids]. rewrite andb_true_iff, negb_true_iff. tauto. Qed.

Lemma avoids_app (P : ascii → bool) (a b : string) :
  avoids P (a +:+ b) = (avoids P a && avoids P b).
Proof.
  induction a as [|c a IH]; [reflexivity|].
  simpl. by rewrite IH, andb_assoc.
Qed.

Section Dead.

Variable P : ascii → bool.

Lemma greedy_dead (m : Regex.Matcher) (k : Regex.Continuation) :
  passes_dead P m → dead P k →
  ∀ n hi w s, avoids P s = true → Regex.greedy m k n hi w s = None.
Proof.
  intros Hm Hk. induction n as [|n IH]; intros hi w s Hs; cbn [Regex.greedy].
  - rewrite (Hk w s Hs). by destruct (Regex.exhausted hi).
  - rewrite (Hk w s Hs). destruct (Regex.exhausted hi); [done|].
    rewrite Hm; [done | exact Hs |].
    intros w' s' Hs'. destruct (_ <? _)%nat; [by apply IH | done].
Qed.

Lemma forced_dead (m : Regex.Matcher) (k : Regex.Continuation) :
  passes_dead P m → dead P k →
  ∀ lo hi w s, avoids P s = true → Regex.forced m k lo hi w s = None.
Proof.
  intros Hm Hk. induction lo as [|lo IH]; intros hi w s Hs; cbn [Regex.forced].
  - by apply greedy_dead.
  - destruct (Regex.exhausted hi); [done|].
    apply Hm; [exact Hs|]. intros w' s' Hs'. by apply IH.
Qed.

Lemma matcher_dead (r : regex) : passes_dead P (Regex.matcher r).
Proof.
  induction r as [|p|r1 IH1 r2 IH2|r1 IH1 r2 IH2|r1 IH1 lo hi|];
    intros w s k Hs Hk; cbn [Regex.matcher].
  - by apply Hk.
  - destruct s as [|c s]; [done|]. apply avoids_tail in Hs as [_ Hs].
    destruct (p c); [by apply Hk | done].
  - apply IH1; [exact Hs|]. intros w' s' Hs'. by apply IH2.
  - by rewrite IH1, IH2.
  - by apply forced_dead.
  - destruct (xorb _ _); [by apply Hk | done].
Qed.

(** A pattern that requires a character of [P] does not match where
    there is none, whatever follows it. *)
Lemma matcher_requires (r : regex) :
  requires P r = true →
  ∀ w s k, avoids P s = true → Regex.matcher r w s k = None.
Proof.
  induction r as [|p|r1 IH1 r2 IH2|r1 IH1 r2 IH2|r1 IH1 lo hi|];
    cbn [requires]; intros Hr w s k Hs; cbn [Regex.matcher]; try done.
  - destruct s as [|c s]; [done|]. apply avoids_tail in Hs as [Hc _].
    rewrite forallb_forall in Hr. specialize (Hr c (all_chars_complete c)).
    destruct (p c); [|done]. cbn in Hr. congruence.
  - apply orb_true_iff in Hr as [Hr|Hr].
    + by apply IH1.
    + apply matcher_dead; [exact Hs|]. intros w' s' Hs'. by apply IH2.
  - apply andb_true_iff in Hr as [Hr1 Hr2]. by rewrite IH1, IH2.
  - apply andb_true_iff in Hr as [Hlo Hr]. apply Nat.ltb_lt in Hlo.
    destruct lo as [|lo]; [lia|]. cbn [Regex.forced].
    destruct (Regex.exhausted hi); [done|]. by apply IH1.
Qed.

Lemma search_requires (r : regex) (s : string) (w : bool) :
  requires P r = true → avoids P s = true → Regex.search r w s = false.
Proof.
  intros Hr. revert w.
  induction s as [|c s IH]; intros w Hs; cbn [Regex.search];
    unfold Regex.match_at; rewrite (matcher_requires r Hr _ _ _ Hs).
  - reflexivity.
  - apply avoids_tail in Hs as [_ Hs]. exact (IH _ Hs).
Qed.

Lemma test_requires (r : regex) (s : string) :
  requires P r = true → avoids P s = true → Regex.test r s = false.
Proof. apply search_requires. Qed.

End Dead.

(** ** The bound of the greedy loop

    [greedy] recurses on a bound of the length of the rest. The bound
    cuts no match short: any bound that is at least the length gives the
    same result. *)

Lemma greedy_ext (m : Regex.Matcher) (k1 k2 : Regex.Continuation) :
  extensional m → (∀ w s, k1 w s = k2 w s) →
  ∀ n hi w s, Regex.greedy m k1 n hi w s = Regex.greedy m k2 n hi w s.
Proof.
  intros Hm Hk. induction n as [|n IH]; intros hi w s; cbn [Regex.greedy];
    rewrite (Hk w s); [done|].
  destruct (Regex.exhausted hi); [done|].
  erewrite Hm; [reflexivity|]. intros w' s'. cbv beta.
  destruct (_ <? _)%nat; [apply IH | done].
Qed.

Lemma forced_ext (m : Regex.Matcher) (k1 k2 : Regex.Continuation) :
  extensional m → (∀ w s, k1 w s = k2 w s) →
  ∀ lo hi w s, Regex.forced m k1 lo hi w s = Regex.forced m k2 lo hi w s.
Proof.
  intros Hm Hk. induction lo as [|lo IH]; intros hi w s; cbn [Regex.forced].
  - by apply greedy_ext.
  - destruct (Regex.exhausted hi); [done|]. apply Hm. intros w' s'. apply IH.
Qed.

Lemma matcher_ext (r : regex) : extensional (Regex.matcher r).
Proof.
  induction r as [|p|r1 IH1 r2 IH2|r1 IH1 r2 IH2|r1 IH1 lo hi|];
    intros w s k1 k2 Hk; cbn [Regex.matcher].
  - apply Hk.
  - destruct s as [|c s]; [done|]. destruct (p c); [apply Hk | done].
  - apply IH1. intros w' s'. by apply IH2.
  - by rewrite (IH1 w s k1 k2 Hk), (IH2 w s k1 k2 Hk).
  - by apply forced_ext.
  - by rewrite Hk.
Qed.

Lemma greedy_bound (r : regex) (k : Regex.Continuation) (n1 n2 : nat)
  (hi : option nat) (w : bool) (s : string) :
  (String.length s ≤ n1)%nat → (String.length s ≤ n2)%nat →
  Regex.greedy (Regex.matcher r) k n1 hi w s
  = Regex.greedy (Regex.matcher r) k n2 hi w s.
Proof.
  assert (∀ w s, Regex.matcher r w s (λ _ _, None) = None) as Hnone.
  { intros w0 s0. apply (matcher_dead (λ _, false)); [|done].
    clear. induction s0 as [|c s0 IH]; [done | exact IH]. }
  assert (∀ n hi w, Regex.greedy (Regex.matcher r) k n hi w "" = k w "") as Hend.
  { intros [|n] hi0 w0; cbn [Regex.greedy]; destruct (Regex.exhausted hi0);
      try done.
    by rewrite (matcher_ext r w0 "" _ (λ _ _, None)), Hnone. }
  revert n2 hi w s. induction n1 as [|n1 IH]; intros n2 hi w s H1 H2.
  - destruct s; [by rewrite !Hend | cbn in H1; lia].
  - destruct n2 as [|n2]; [destruct s; [by rewrite !Hend | cbn in H2; lia]|].
    cbn [Regex.greedy]. destruct (Regex.exhausted hi); [done|].
    erewrite (matcher_ext r); [reflexivity|]. intros w' s'. cbv beta.
    destruct (Nat.ltb_spec (String.length s') (String.length s)); [|done].
    apply IH; lia.
Qed.

(** A prompt without "@" has no email match, one without a digit no
    phone, card or SSN match, one without a lowercase letter no name
    match. *)
Lemma hasPII_requires (prompt : string) :
  avoids (Chars.only "@") prompt = true →
  avoids Chars.is_digit prompt = true →
  avoids Chars.is_lower prompt = true →
  Regex.test Patterns.emailRegex prompt = false
  ∧ Regex.test Patterns.phoneRegex prompt = false
  ∧ Regex.test Patterns.creditCardRegex prompt = false
  ∧ Regex.test Patterns.ssnRegex prompt = false
  ∧ Regex.test Patterns.nameRegex prompt = false.
Proof.
  intros Hat Hdigit Hlower. repeat split.
  - by apply (test_requires (Chars.only "@")).
  - by apply (test_requires Chars.is_digit).
  - by apply (test_requires Chars.is_digit).
  - by apply (test_requires Chars.is_digit).
  - by apply (test_requires Chars.is_lower).
Qed.

(** The placeholder tokens have none of these characters, and neither has
    a text made of them. *)
Lemma placeholders_avoid (tokens : list string) :
  Forall (λ token, token ∈ placeholders) tokens →
  avoids (Chars.only "@") (String.concat " " tokens) = true
  ∧ avoids Chars.is_digit (String.concat " " tokens) = true
  ∧ avoids Chars.is_lower (String.concat " " tokens) = true.
Proof.
  assert (∀ token, token ∈ placeholders →
            avoids (Chars.only "@") token = true
            ∧ avoids Chars.is_digit token = true
            ∧ avoids Chars.is_lower token = true) as Htoken.
  { intros token Hin. unfold placeholders in Hin.
    repeat (apply elem_of_cons in Hin as [->|Hin]; [by vm_compute|]).
    by apply elem_of_nil in Hin. }
  induction 1 as [|token rest Hin Hrest IH]; [done|].
  destruct (Htoken _ Hin) as (H1 & H2 & H3). destruct IH as (I1 & I2 & I3).
  destruct rest as [|token' rest']; [done|].
  change (String.concat " " (token :: token' :: rest'))
    with (token +:+ " " +:+ String.concat " " (token' :: rest')).
  rewrite !avoids_app, H1, H2, H3, I1, I2, I3. done.
Qed.

(** ** The anonymize scanner and the final sanitized prompt *)

Lemma scan_one_anonymize (prompt : string) :
  Fallback.scan_one prompt "anonymize" =
    Some {| scanner_name := "anonymize"; input_prompt := prompt;
            sanitized_prompt := JStr (Fallback.sanitizedPrompt prompt);
            is_valid := Fallback.anonymizeValid prompt;
            risk_score := JNum (Fallback.anonymizeRiskScore prompt);
            details := Fallback.anonymizeDetails prompt |}.
Proof. reflexivity. Qed.

(** C4: the code at the failing input. Only [secrets] is requested and
    the backend is unreachable; the one entry of the response keeps the
    prompt, yet [final_sanitized_prompt] carries the redaction of the
    anonymize scanner, which was not requested. *)
Lemma redaction_without_anonymize :
  let body := {| prompt := "Email me at jane@example.com";
                 scanners := Some ["secrets"];
                 banned_substrings_list := None; regex_patterns_list := None |} in
  (∀ ToNumber_of,
     POST ToNumber_of (Some body) (FetchFailed ConnectionRefused)
     = Scanned (Fallback.fallbackResponse body))
  ∧ scanner_names (Fallback.fallbackResponse body) = ["secrets"]
  ∧ sanitized_prompt <$> applied_scanners_results (Fallback.fallbackResponse body)
    = [JStr "Email me at jane@example.com"]
  ∧ final_sanitized_prompt (Fallback.fallbackResponse body)
    = JStr "Email me at [REDACTED_EMAIL]".
Proof.
  intros body. split; [reflexivity|]. vm_compute. repeat split.
Qed.

Lemma scan_one_anonymize_clean (prompt : string) :
  Fallback.hasPII prompt = false →
  Fallback.scan_one prompt "anonymize" =
    Some {| scanner_name := "anonymize"; input_prompt := prompt;
            sanitized_prompt := JStr prompt; is_valid := true;
            risk_score := JNum 0; details := JObj [] |}
  ∧ Fallback.sanitizedPrompt prompt = prompt.
Proof.
  intros Hpii. rewrite scan_one_anonymize.
  unfold Fallback.sanitizedPrompt, Fallback.anonymizeValid,
    Fallback.anonymizeRiskScore, Fallback.anonymizeDetails.
  by rewrite Hpii.
Qed.

(** A text made of placeholder tokens is left alone. *)
Lemma placeholders_left_alone (tokens : list string) :
  Forall (λ token, token ∈ placeholders) tokens →
  Fallback.hasPII (String.concat " " tokens) = false.
Proof.
  intros Htokens. destruct (placeholders_avoid tokens Htokens) as (H1 & H2 & H3).
  destruct (hasPII_requires _ H1 H2 H3) as (He & Hp & Hc & Hs & Hn).
  unfold Fallback.hasPII, Fallback.hasEmail, Fallback.hasPhone,
    Fallback.hasCreditCard, Fallback.hasSSN, Fallback.hasName.
  by rewrite He, Hp, Hc, Hs, Hn.
Qed.

(** C9. On a prompt that none of the five patterns matches (as is every
    text made of the placeholder tokens only) the fallback anonymize
    scanner replaces nothing: its entry has the prompt itself as
    [sanitized_prompt], [is_valid = true], [risk_score = 0] and empty
    [details], and [final_sanitized_prompt] is the prompt. *)
Theorem anonymize_keeps_clean_prompt (body : ScanRequest) (e : ScannerResult) :
  e ∈ applied_scanners_results (Fallback.fallbackResponse body) →
  scanner_name e = "anonymize" →
  Regex.test Patterns.emailRegex (prompt body) = false →
  Regex.test Patterns.phoneRegex (prompt body) = false →
  Regex.test Patterns.creditCardRegex (prompt body) = false →
  Regex.test Patterns.ssnRegex (prompt body) = false →
  Regex.test Patterns.nameRegex (prompt body) = false →
  sanitized_prompt e = JStr (prompt body)
  ∧ is_valid e = true
  ∧ risk_score e = JNum 0
  ∧ details e = JObj []
  ∧ final_sanitized_prompt (Fallback.fallbackResponse body) = JStr (prompt body).
Proof.
  intros Hin Hname Hemail Hphone Hcc Hssn Hperson.
  apply fallback_entry in Hin as [_ Hone]. rewrite Hname in Hone.
  assert (Fallback.hasPII (prompt body) = false) as Hpii.
  { unfold Fallback.hasPII, Fallback.hasEmail, Fallback.hasPhone,
      Fallback.hasCreditCard, Fallback.hasSSN, Fallback.hasName.
    by rewrite Hemail, Hphone, Hcc, Hssn, Hperson. }
  destruct (scan_one_anonymize_clean _ Hpii) as [Hclean Hsame].
  rewrite Hclean in Hone. injection Hone as <-.
  cbn [sanitized_prompt is_valid risk_score details final_sanitized_prompt
       Fallback.fallbackResponse].
  by rewrite Hsame.
Qed.

Lemma anonymize_keeps_clean_prompt_witness :
  let body :=
    {| prompt := String.concat " " placeholders;
       scanners := Some ["anonymize"];
       banned_substrings_list := None; regex_patterns_list := None |} in
  prompt body = "[REDACTED_EMAIL] [REDACTED_PHONE] [REDACTED_CC] [REDACTED_SSN] [REDACTED_PERSON]"
  ∧ ∃ e, applied_scanners_results (Fallback.fallbackResponse body) = [e]
         ∧ scanner_name e = "anonymize"
         ∧ sanitized_prompt e = JStr (prompt body)
         ∧ is_valid e = true
         ∧ risk_score e = JNum 0.
Proof.
  intros body. split; [reflexivity|].
  assert (Forall (λ token, token ∈ placeholders) placeholders) as Htokens
    by (apply Forall_forall; tauto).
  destruct (placeholders_avoid _ Htokens) as (H1 & H2 & H3).
  destruct (hasPII_requires (prompt body) H1 H2 H3) as (He & Hp & Hc & Hs & Hn).
  pose (e := {| scanner_name := "anonymize"; input_prompt := prompt body;
                sanitized_prompt := JStr (prompt body); is_valid := true;
                risk_score := JNum 0; details := JObj [] |}).
  assert (applied_scanners_results (Fallback.fallbackResponse body) = [e]) as Hres
    by (vm_compute; reflexivity).
  assert (e ∈ applied_scanners_results (Fallback.fallbackResponse body)) as Hin
    by (rewrite Hres; apply list_elem_of_here).
  exists e. split; [exact Hres|]. split; [reflexivity|].
  destruct (anonymize_keeps_clean_prompt body e Hin eq_refl He Hp Hc Hs Hn)
    as (Hsan & Hv & Hr & _).
  repeat split; assumption.
Defined.

(** ** The normaliser, rule by rule *)

Lemma own_put (fields : list (string * jsval)) (k : string) (v : jsval) :
  JS.own (JS.put fields k v) k = v.
Proof.
  induction fields as [|[k' v'] rest IH]; cbn [JS.put JS.own].
  - by rewrite String.eqb_refl.
  - destruct (k' =? k) eqn:E; cbn [JS.own]; [by rewrite String.eqb_refl|].
    by rewrite E.
Qed.

Lemma set_get (o o' : jsval) (k : string) (v : jsval) :
  JS.set o k v = Some o' → JS.isArray o' = false → JS.get o' k = Some v.
Proof.
  destruct o; intros [= <-]; [done|]. intros _. cbn [JS.get]. by rewrite own_put.
Qed.

Section Rules.

Variable ToNumber_of : jsval → option float.

Lemma some_score_exceeds_spec (items : list jsval) (hit : bool) :
  some_score_exceeds ToNumber_of items = Some hit →
  hit = true ↔ ∃ item, item ∈ items ∧ score_exceeds ToNumber_of item = Some true.
Proof.
  revert hit; induction items as [|item rest IH]; intros hit; cbn [some_score_exceeds].
  - intros [= <-]. split; [done|]. intros (? & Hin & _). by apply elem_of_nil in Hin.
  - destruct (score_exceeds ToNumber_of item) as [[|]|] eqn:Hs;
      cbn [mbind option_bind]; [| |done].
    + intros [= <-]. split; [|done]. intros _. exists item. split; [left|done].
    + intros Hrest. rewrite (IH _ Hrest). split.
      * intros (item' & Hin & H). exists item'. split; [by right | done].
      * intros (item' & Hin & H). apply elem_of_cons in Hin as [->|Hin].
        -- congruence.
        -- by exists item'.
Qed.

Lemma score_exceeds_scored (item : jsval) :
  scored item →
  ∃ x, JS.get item "score" = Some (JNum x)
       ∧ score_exceeds ToNumber_of item = Some (0.7 <? x)%float.
Proof.
  intros (fields & x & -> & Hx). exists x.
  unfold score_exceeds. cbn [JS.get mbind option_bind]. by rewrite Hx.
Qed.

Lemma some_score_exceeds_scored (items : list jsval) :
  Forall scored items → is_Some (some_score_exceeds ToNumber_of items).
Proof.
  induction 1 as [|item rest Hitem _ IH]; cbn [some_score_exceeds]; [by eexists|].
  destruct (score_exceeds_scored _ Hitem) as (x & _ & ->).
  cbn [mbind option_bind]. destruct (0.7 <? x)%float; [by eexists | exact IH].
Qed.

(** A payload that is neither [null] nor [undefined] gets a result for
    every name, before the detection rules. *)
Lemma scanner_result_is_Some (apiData : jsval) (body : ScanRequest)
  (scannerName : string) :
  is_Some (JS.get apiData "detection") →
  is_Some (scanner_result apiData body scannerName).
Proof.
  intros Hdef. unfold scanner_result.
  assert (∀ k, is_Some (JS.get apiData k)) as Hget.
  { intros k. destruct apiData; cbn [JS.get] in *; by eauto using is_Some_None. }
  destruct (scannerFieldMap scannerName) as [resultField|].
  - destruct (Hget resultField) as [result ->]. cbn [mbind option_bind].
    destruct (JS.truthy result); [by eexists|].
    destruct (Hget "sanitized_prompt") as [top ->]. by eexists.
  - cbn [mbind option_bind JS.truthy].
    destruct (Hget "sanitized_prompt") as [top ->]. by eexists.
Qed.

Lemma detection_defined (apiData : jsval) (kind : string) :
  JS.truthy (detection_of apiData kind) = true →
  is_Some (JS.get apiData "detection").
Proof.
  unfold detection_of, JS.get_opt. destruct apiData; cbn; by eauto.
Qed.

(** The toxicity rule, as the loop body applies it. *)
Lemma normalize_one_toxicity (apiData : jsval) (body : ScanRequest) :
  JS.truthy (detection_of apiData "toxicity") = true →
  normalize_one ToNumber_of apiData body "toxicity"
  = (r ← scanner_result apiData body "toxicity";
     d ← JS.set (details r) "toxicity_scores" (detection_of apiData "toxicity");
     hit ← toxicity_some ToNumber_of (detection_of apiData "toxicity");
     Some (with_is_valid (with_details r d) (negb hit))).
Proof.
  intros Ht. unfold normalize_one, apply_detection.
  fold (detection_of apiData "toxicity"). rewrite Ht. reflexivity.
Qed.

End Rules.

Lemma normalize_entry (ToNumber_of : jsval → option float) (apiData : jsval)
  (body : ScanRequest) (response : ScanResponse) (e : ScannerResult) :
  normalize ToNumber_of apiData body = Some response →
  e ∈ applied_scanners_results response →
  scanner_name e ∈ requestedScanners body
  ∧ normalize_one ToNumber_of apiData body (scanner_name e) = Some e.
Proof.
  unfold normalize. intros H Hin.
  destruct (mapM _ _) as [results|] eqn:Hm; [|done].
  injection H as <-. cbn [applied_scanners_results] in Hin.
  apply mapM_Some_1 in Hm.
  induction Hm as [|name e' names results He _ IH]; [by apply elem_of_nil in Hin|].
  apply elem_of_cons in Hin as [->|Hin].
  - rewrite (normalize_one_name _ _ _ _ _ He). split; [left | exact He].
  - destruct (IH Hin) as [? ?]. split; [by right | done].
Qed.

(** C8. In the normaliser path, when [toxicity] is requested and the
    payload has a truthy [detection.toxicity], that value is an array of
    items, it is copied into [details.toxicity_scores] of the toxicity
    entry (whose [details] is a mapping unless the backend sent an array
    there), and the entry's [is_valid] is false exactly when
    [item.score > 0.7] holds for some item. For a payload typed as the
    backend contract has it (items with numeric scores, [details] a
    mapping or missing) the rule does produce the entry, and then
    [is_valid] is false exactly when some score is greater than 0.7. *)
Theorem toxicity_scores_rule (ToNumber_of : jsval → option float)
  (apiData : jsval) (body : ScanRequest) :
  JS.truthy (detection_of apiData "toxicity") = true →
  (∀ response e,
     normalize ToNumber_of apiData body = Some response →
     e ∈ applied_scanners_results response →
     scanner_name e = "toxicity" →
     ∃ items,
       detection_of apiData "toxicity" = JArr items
       ∧ (JS.isArray (details e) = false →
          JS.get (details e) "toxicity_scores" = Some (JArr items))
       ∧ (is_valid e = false ↔
          ∃ item, item ∈ items ∧ score_exceeds ToNumber_of item = Some true))
  ∧ (∀ items,
       detection_of apiData "toxicity" = JArr items →
       Forall scored items →
       mapping_or_missing (JS.get_opt (sub_result apiData "toxicity") "details") →
       ∃ e,
         normalize_one ToNumber_of apiData body "toxicity" = Some e
         ∧ JS.get (details e) "toxicity_scores" = Some (JArr items)
         ∧ (is_valid e = false ↔
            Exists (λ item, ∃ x, JS.get item "score" = Some (JNum x)
                                 ∧ (0.7 <? x)%float = true) items)).
Proof.
  intros Ht.
  assert (∀ e, normalize_one ToNumber_of apiData body "toxicity" = Some e →
               ∃ r d items,
                 scanner_result apiData body "toxicity" = Some r
                 ∧ detection_of apiData "toxicity" = JArr items
                 ∧ JS.set (details r) "toxicity_scores" (JArr items) = Some d
                 ∧ details e = d
                 ∧ (is_valid e = false ↔
                    ∃ item, item ∈ items
                            ∧ score_exceeds ToNumber_of item = Some true))
    as Hone.
  { intros e He. rewrite (normalize_one_toxicity _ _ _ Ht) in He.
    destruct (scanner_result apiData body "toxicity") as [r|]; [|done].
    cbn [mbind option_bind] in He.
    destruct (JS.set _ _ _) as [d|] eqn:Hd; [|done].
    cbn [mbind option_bind] in He.
    destruct (toxicity_some _ _) as [hit|] eqn:Hhit; [|done].
    injection He as <-.
    destruct (detection_of apiData "toxicity") as [| | | | |items|] eqn:Hdet;
      try done.
    exists r, d, items. repeat split; try done; cbn [is_valid with_is_valid].
    - intros Hv. apply negb_false_iff in Hv.
      by apply (some_score_exceeds_spec _ _ _ Hhit).
    - intros Hex. apply negb_false_iff.
      by apply (some_score_exceeds_spec _ _ _ Hhit). }
  split.
  - intros response e Hn Hin Hname.
    destruct (normalize_entry _ _ _ _ _ Hn Hin) as [_ He]. rewrite Hname in He.
    destruct (Hone e He) as (r & d & items & _ & Hdet & Hd & <- & Hv).
    exists items. split; [exact Hdet|]. split; [|exact Hv].
    intros Harr. by eapply set_get.
  - intros items Hdet Hscored Hdetails.
    destruct (scanner_result_is_Some apiData body "toxicity"
                (detection_defined _ _ Ht)) as [r Hr].
    assert (∃ fields, details r = JObj fields) as [fields Hfields].
    { apply scanner_result_inv in Hr as [(_ & _ & _ & ->) | (_ & _ & _ & ->)];
        [|by eexists].
      destruct (or_cases (JS.get_opt (sub_result apiData "toxicity") "details")
                  (JObj [])) as [[Htd ->] | [_ ->]]; [|by eexists].
      destruct (JS.get_opt (sub_result apiData "toxicity") "details");
        cbn [mapping_or_missing] in Hdetails; try congruence. by eexists. }
    destruct (some_score_exceeds_scored ToNumber_of items Hscored) as [hit Hhit].
    assert (normalize_one ToNumber_of apiData body "toxicity"
            = Some (with_is_valid
                      (with_details r (JObj (JS.put fields "toxicity_scores" (JArr items))))
                      (negb hit))) as He.
    { rewrite (normalize_one_toxicity _ _ _ Ht), Hr, Hdet.
      cbn [mbind option_bind]. rewrite Hfields.
      cbn [mbind option_bind JS.set toxicity_some]. by rewrite Hhit. }
    eexists. split; [exact He|].
    destruct (Hone _ He) as (_ & _ & items' & _ & Hdet' & _ & _ & Hv).
    rewrite Hdet in Hdet'. injection Hdet' as <-.
    split; [cbn; by rewrite own_put|].
    rewrite Hv, Exists_exists. split.
    + intros (item & Hin & Hex). exists item. split; [exact Hin|].
      rewrite Forall_forall in Hscored.
      destruct (score_exceeds_scored ToNumber_of item (Hscored _ Hin))
        as (x & Hx & Hs).
      exists x. split; [exact Hx|]. congruence.
    + intros (item & Hin & x & Hx & Hgt). exists item. split; [exact Hin|].
      rewrite Forall_forall in Hscored.
      destruct (score_exceeds_scored ToNumber_of item (Hscored _ Hin))
        as (x' & Hx' & Hs).
      rewrite Hs. congruence.
Qed.

Lemma toxicity_scores_rule_witness :
  let body := {| prompt := "you idiot"; scanners := Some ["toxicity"];
                 banned_substrings_list := None; regex_patterns_list := None |} in
  let items := [ JObj [ ("label", JStr "insult"); ("score", JNum 0.91) ];
                 JObj [ ("label", JStr "threat"); ("score", JNum 0.05) ] ] in
  let apiData := JObj [ ("sanitized_prompt", JStr "you idiot");
                        ("is_valid", JBool true);
                        ("risk_score", JNum 0.2);
                        ("detection", JObj [ ("toxicity", JArr items) ]) ] in
  JS.truthy (detection_of apiData "toxicity") = true
  ∧ ∀ ToNumber_of, ∃ e,
      normalize_one ToNumber_of apiData body "toxicity" = Some e
      ∧ JS.get (details e) "toxicity_scores" = Some (JArr items)
      ∧ is_valid e = false.
Proof.
  intros body items apiData.
  assert (JS.truthy (detection_of apiData "toxicity") = true) as Ht by reflexivity.
  split; [exact Ht|]. intros ToNumber_of.
  destruct (toxicity_scores_rule ToNumber_of apiData body Ht) as [_ Htyped].
  destruct (Htyped items eq_refl) as (e & He & Hd & Hv).
  - repeat apply List.Forall_cons; try apply List.Forall_nil;
      do 2 eexists; split; reflexivity.
  - reflexivity.
  - exists e. split; [exact He|]. split; [exact Hd|].
    apply Hv. apply Exists_cons_hd. eexists. split; reflexivity.
Defined.

Lemma get_opt_falsy (v : jsval) (k : string) :
  JS.truthy v = false → JS.get_opt v k = JUndefined.
Proof. by destruct v. Qed.

(** C10 (amended). In the normaliser path a [sanitized_prompt] that is
    the empty string (or any other falsy value) counts as missing, and
    the [||] chain goes on to the next holder. [final_sanitized_prompt]
    is the payload's top-level [sanitized_prompt] if that is truthy and
    the original prompt otherwise; the sub-objects play no part in it.
    The [sanitized_prompt] of an entry is that of the scanner's
    sub-object if truthy, else what [final_sanitized_prompt] is. So the
    original prompt comes back where the top-level value is empty, for
    the final prompt and for every entry whose sub-object has no truthy
    value of its own; an empty value of a sub-object alone is replaced by
    the top-level text, not by the original prompt. *)
Theorem empty_sanitized_prompt_is_replaced (ToNumber_of : jsval → option float)
  (apiData : jsval) (body : ScanRequest) (response : ScanResponse) :
  normalize ToNumber_of apiData body = Some response →
  let top := JS.get_opt apiData "sanitized_prompt" in
  let of_entry e :=
    JS.get_opt (sub_result apiData (scanner_name e)) "sanitized_prompt" in
  final_sanitized_prompt response
  = (if JS.truthy top then top else JStr (prompt body))
  ∧ Forall (λ e, sanitized_prompt e
                 = if JS.truthy (of_entry e) then of_entry e
                   else final_sanitized_prompt response)
      (applied_scanners_results response)
  ∧ (top = JStr "" →
     final_sanitized_prompt response = JStr (prompt body)
     ∧ Forall (λ e, JS.truthy (of_entry e) = false →
                    sanitized_prompt e = JStr (prompt body))
         (applied_scanners_results response))
  ∧ (JS.truthy top = true →
     final_sanitized_prompt response = top
     ∧ Forall (λ e, of_entry e = JStr "" → sanitized_prompt e = top)
         (applied_scanners_results response)).
Proof.
  intros Hn top of_entry.
  assert (final_sanitized_prompt response
          = if JS.truthy top then top else JStr (prompt body)) as Hfinal.
  { unfold normalize in Hn. destruct (mapM _ _); [|done]. by injection Hn as <-. }
  assert (Forall (λ e, sanitized_prompt e
                       = if JS.truthy (of_entry e) then of_entry e
                         else final_sanitized_prompt response)
            (applied_scanners_results response)) as Hentries.
  { apply Forall_forall. intros e Hin. rewrite Hfinal.
    destruct (normalize_entry _ _ _ _ _ Hn Hin) as [_ He].
    unfold normalize_one in He.
    destruct (scanner_result _ _ _) as [r|] eqn:Hr; [|done].
    cbn [mbind option_bind] in He.
    apply apply_detection_keeps in He as [_ ->].
    apply scanner_result_inv in Hr as [(_ & -> & _) | (Hsub & -> & _)].
    - reflexivity.
    - unfold of_entry. by rewrite (get_opt_falsy _ _ Hsub). }
  split; [exact Hfinal|]. split; [exact Hentries|]. split.
  - intros Htop. rewrite Htop in Hfinal. cbn in Hfinal.
    split; [exact Hfinal|].
    eapply Forall_impl; [exact Hentries|]. cbn beta.
    intros e -> Hsub. by rewrite Hsub.
  - intros Htop. rewrite Htop in Hfinal. split; [exact Hfinal|].
    eapply Forall_impl; [exact Hentries|]. cbn beta.
    intros e -> Hsub. by rewrite Hsub, Hfinal.
Qed.

Lemma empty_sanitized_prompt_is_replaced_witness :
  let body := {| prompt := "jane@example.com";
                 scanners := Some ["anonymize"; "toxicity"];
                 banned_substrings_list := None; regex_patterns_list := None |} in
  let apiData :=
    JObj [ ("sanitized_prompt", JStr "");
           ("is_valid", JBool false);
           ("risk_score", JNum 0.8);
           ("anonymize_result", JObj [ ("sanitized_prompt", JStr "");
                                       ("is_valid", JBool false) ]) ] in
  JS.get_opt apiData "sanitized_prompt" = JStr ""
  ∧ ∀ ToNumber_of, ∃ response,
      POST ToNumber_of (Some body) (Replied 200 (Parsed apiData)) = Scanned response
      ∧ final_sanitized_prompt response = JStr "jane@example.com"
      ∧ sanitized_prompt <$> applied_scanners_results response
        = [ JStr "jane@example.com"; JStr "jane@example.com" ].
Proof.
  intros body apiData. split; [reflexivity|]. intros ToNumber_of.
  eassert (normalize ToNumber_of apiData body = Some _) as Hn by reflexivity.
  destruct (empty_sanitized_prompt_is_replaced ToNumber_of apiData body _ Hn)
    as (_ & _ & Hempty & _).
  destruct (Hempty eq_refl) as [Hfinal _].
  eexists. split; [reflexivity|]. split; [exact Hfinal | reflexivity].
Defined.

(** C10, as stated, fails for the sub-object: when only the
    [sanitized_prompt] of [anonymize_result] is empty and the payload has
    a text of its own, the entry and the final prompt carry that text,
    not the original prompt. And with an empty top-level value, an entry
    whose sub-object has a text keeps that text. *)
Lemma empty_sub_object_counterexample :
  let body := {| prompt := "jane@example.com";
                 scanners := Some ["anonymize"];
                 banned_substrings_list := None; regex_patterns_list := None |} in
  let sub_empty :=
    JObj [ ("sanitized_prompt", JStr "[TOP]");
           ("anonymize_result", JObj [ ("sanitized_prompt", JStr "");
                                       ("is_valid", JBool false) ]) ] in
  let top_empty :=
    JObj [ ("sanitized_prompt", JStr "");
           ("anonymize_result", JObj [ ("sanitized_prompt", JStr "[SUB]");
                                       ("is_valid", JBool false) ]) ] in
  (JS.get_opt (sub_result sub_empty "anonymize") "sanitized_prompt" = JStr ""
   ∧ ∀ ToNumber_of, ∃ response,
       POST ToNumber_of (Some body) (Replied 200 (Parsed sub_empty))
       = Scanned response
       ∧ final_sanitized_prompt response = JStr "[TOP]"
       ∧ sanitized_prompt <$> applied_scanners_results response = [ JStr "[TOP]" ]
       ∧ final_sanitized_prompt response ≠ JStr (prompt body))
  ∧ (JS.get_opt top_empty "sanitized_prompt" = JStr ""
     ∧ ∀ ToNumber_of, ∃ response,
         POST ToNumber_of (Some body) (Replied 200 (Parsed top_empty))
         = Scanned response
         ∧ final_sanitized_prompt response = JStr (prompt body)
         ∧ sanitized_prompt <$> applied_scanners_results response
           = [ JStr "[SUB]" ]).
Proof.
  cbn zeta. split; (split; [reflexivity|]); intros ToNumber_of; eexists.
  - split; [reflexivity|]. split; [reflexivity|]. split; [reflexivity|].
    cbn. discriminate.
  - split; [reflexivity|]. split; reflexivity.
Qed.

(** ** The scenarios of the specification, run on the model *)

Section Scenarios.

Variable ToNumber_of : jsval → option float.

Let request (p : string) (names : list string) : option ScanRequest :=
  Some {| prompt := p; scanners := Some names;
          banned_substrings_list := None; regex_patterns_list := None |}.

(** Scenario A: an email address, [anonymize], backend unreachable. *)
Example scenario_A :
  POST ToNumber_of (request "Email me at jane@example.com" ["anonymize"])
    (FetchFailed ConnectionRefused)
  = Scanned
      {| original_prompt := "Email me at jane@example.com";
         final_sanitized_prompt := JStr "Email me at [REDACTED_EMAIL]";
         overall_is_valid := false;
         applied_scanners_results :=
           [ {| scanner_name := "anonymize";
                input_prompt := "Email me at jane@example.com";
                sanitized_prompt := JStr "Email me at [REDACTED_EMAIL]";
                is_valid := false;
                risk_score := JNum 0.8;
                details :=
                  JObj [ ("pii_detected", JBool true);
                         ("found", JObj [ ("email", JBool true);
                                          ("phone", JBool false);
                                          ("creditCard", JBool false);
                                          ("ssn", JBool false);
                                          ("name", JBool false) ]) ] |} ] |}.
Proof. vm_compute. reflexivity. Qed.

(** Scenario B: a harmless prompt, [secrets] and [toxicity]. *)
Example scenario_B :
  POST ToNumber_of (request "This plan is fine." ["secrets"; "toxicity"])
    (FetchFailed ConnectionRefused)
  = Scanned
      {| original_prompt := "This plan is fine.";
         final_sanitized_prompt := JStr "This plan is fine.";
         overall_is_valid := true;
         applied_scanners_results :=
           [ {| scanner_name := "secrets"; input_prompt := "This plan is fine.";
                sanitized_prompt := JStr "This plan is fine.";
                is_valid := true; risk_score := JNum 0; details := JObj [] |};
             {| scanner_name := "toxicity"; input_prompt := "This plan is fine.";
                sanitized_prompt := JStr "This plan is fine.";
                is_valid := true; risk_score := JNum 0; details := JObj [] |} ] |}.
Proof. vm_compute. reflexivity. Qed.

(** Scenario D: the legacy flat shape, [anonymize]. *)
Example scenario_D :
  POST ToNumber_of (request "Email me at jane@example.com" ["anonymize"])
    (Replied 200
       (Parsed (JObj [ ("sanitized_prompt", JStr "Email me at [EMAIL]");
                       ("is_valid", JBool false);
                       ("risk_score", JNum 0.8);
                       ("detection",
                         JObj [ ("pii", JArr [ JStr "jane@example.com" ]) ]) ])))
  = Scanned
      {| original_prompt := "Email me at jane@example.com";
         final_sanitized_prompt := JStr "Email me at [EMAIL]";
         overall_is_valid := false;
         applied_scanners_results :=
           [ {| scanner_name := "anonymize";
                input_prompt := "Email me at jane@example.com";
                sanitized_prompt := JStr "Email me at [EMAIL]";
                is_valid := false;
                risk_score := JNum 0.8;
                details :=
                  JObj [ ("pii_detected", JBool true);
                         ("entities", JArr [ JStr "jane@example.com" ]) ] |} ] |}.
Proof. vm_compute. reflexivity. Qed.

(** The scanner is not idempotent on every output of its own: the name
    pattern can uncover a word boundary in front of nine digits. *)
Example redact_twice :
  Fallback.redact "John Smithx123456789" = "[REDACTED_PERSON]123456789"
  ∧ Fallback.redact "[REDACTED_PERSON]123456789"
    = "[REDACTED_PERSON][REDACTED_SSN]".
Proof. vm_compute. split; reflexivity. Qed.

End Scenarios.

(** * Further properties of the first variant *)

(** ** Replacing where nothing matches *)

Lemma replace_from_no_match (r : regex) (by_ : string) (s : string) (w : bool) :
  Regex.search r w s = false → Regex.replace_from r by_ w s 0 = s.
Proof.
  revert w. induction s as [|c s IH]; intros w;
    cbn [Regex.search Regex.replace_from];
    destruct (Regex.match_at r w _); try done.
  intros H. by rewrite (IH _ H).
Qed.

Lemma replace_no_match (r : regex) (by_ : string) (s : string) :
  Regex.test r s = false → Regex.replace r by_ s = s.
Proof. apply replace_from_no_match. Qed.

(** X1. The five replacements leave a prompt that none of the patterns
    matches as it is, so the sanitized prompt of the fallback is the
    result of the five replacements for every prompt, with or without
    the [hasPII] guard. *)
Theorem sanitizedPrompt_is_redact (prompt : string) :
  Fallback.sanitizedPrompt prompt = Fallback.redact prompt.
Proof.
  unfold Fallback.sanitizedPrompt. destruct (Fallback.hasPII prompt) eqn:Hpii;
    [reflexivity|].
  unfold Fallback.hasPII in Hpii. repeat apply orb_false_elim in Hpii as [Hpii ?].
  unfold Fallback.redact.
  rewrite (replace_no_match Patterns.emailRegex) by assumption.
  rewrite (replace_no_match Patterns.phoneRegex) by assumption.
  rewrite (replace_no_match Patterns.creditCardRegex) by assumption.
  rewrite (replace_no_match Patterns.ssnRegex) by assumption.
  rewrite (replace_no_match Patterns.nameRegex) by assumption.
  reflexivity.
Qed.

(** ** Validity in the fallback *)

Lemma scan_one_invalid (prompt scannerName : string) (e : ScannerResult) :
  Fallback.scan_one prompt scannerName = Some e →
  is_valid e = false ↔
    (scannerName = "anonymize" ∧ Fallback.hasPII prompt = true)
    ∨ (scannerName = "toxicity" ∧ Fallback.hasToxicity prompt = true)
    ∨ (scannerName = "secrets" ∧ Fallback.hasSecrets prompt = true).
Proof.
  unfold Fallback.scan_one, Fallback.mock, Fallback.anonymizeValid,
    Fallback.toxicityValid, Fallback.secretsValid.
  name_cases scannerName; intros [= <-]; cbn [is_valid];
    rewrite ?negb_false_iff; split; try tauto; try done;
    intros [[? ?] | [[? ?] | [? ?]]]; congruence.
Qed.

(** X2. The fallback response is invalid exactly when a requested
    scanner among [anonymize], [toxicity] and [secrets] triggers on the
    prompt; [bansubstrings], [regex], [code] and unknown names never
    make it invalid. *)
Theorem fallback_invalid_iff (body : ScanRequest) :
  overall_is_valid (Fallback.fallbackResponse body) = false ↔
    ("anonymize" ∈ requestedScanners body
     ∧ Fallback.hasPII (prompt body) = true)
    ∨ ("toxicity" ∈ requestedScanners body
       ∧ Fallback.hasToxicity (prompt body) = true)
    ∨ ("secrets" ∈ requestedScanners body
       ∧ Fallback.hasSecrets (prompt body) = true).
Proof.
  cbn [overall_is_valid Fallback.fallbackResponse].
  unfold every_is_valid, Fallback.scannerResults.
  induction (requestedScanners body) as [|name names IH].
  - cbn. split; [done|]. intros [[H _] | [[H _] | [H _]]]; by apply elem_of_nil in H.
  - cbn [omap list_omap].
    destruct (Fallback.scan_one (prompt body) name) as [e|] eqn:He.
    + cbn [forallb]. rewrite andb_false_iff, IH, (scan_one_invalid _ _ _ He).
      rewrite !elem_of_cons. split.
      * intros [[[-> ?] | [[-> ?] | [-> ?]]] | [[? ?] | [[? ?] | [? ?]]]]; tauto.
      * intros [[[<- | ?] ?] | [[[<- | ?] ?] | [[<- | ?] ?]]]; tauto.
    + rewrite IH, !elem_of_cons.
      assert (name ≠ "anonymize" ∧ name ≠ "toxicity" ∧ name ≠ "secrets")
        as (? & ? & ?).
      { revert He. unfold Fallback.scan_one. name_cases name; done. }
      split.
      * intros [[? ?] | [[? ?] | [? ?]]]; tauto.
      * intros [[[<- | ?] ?] | [[[<- | ?] ?] | [[<- | ?] ?]]]; tauto.
Qed.

Lemma scan_one_toxicity (prompt : string) :
  Fallback.scan_one prompt "toxicity" =
    Some {| scanner_name := "toxicity"; input_prompt := prompt;
            sanitized_prompt := JStr prompt;
            is_valid := Fallback.toxicityValid prompt;
            risk_score := JNum (Fallback.toxicityRiskScore prompt);
            details := Fallback.toxicityDetails prompt |}.
Proof. reflexivity. Qed.

Lemma append_assoc (a b c : string) : (a +:+ b) +:+ c = a +:+ b +:+ c.
Proof.
  induction a as [|x a IH]; [reflexivity|].
  change (String x ((a +:+ b) +:+ c) = String x (a +:+ b +:+ c)).
  by rewrite IH.
Qed.

(** A word that contains a vocabulary word brings it along. *)
Lemma occurs_inside (prompt word inner : string) :
  occurs_ignoring_case prompt word →
  includes word inner = true →
  Fallback.mentions prompt inner = true.
Proof.
  intros Hocc Hin. apply mentions_spec in Hocc. unfold Fallback.mentions in *.
  apply includes_spec in Hocc as (pre & post & ->).
  apply includes_spec in Hin as (pre' & post' & ->).
  apply includes_spec. exists (pre +:+ pre'), (post' +:+ post).
  by rewrite !append_assoc.
Qed.

(** X3. The toxic vocabulary is matched as a substring, and "ass" lies
    inside "password": in the fallback path the [toxicity] result of a
    prompt in which "password" occurs, whatever the case of its letters,
    has [is_valid = false], [risk_score = 0.9] and "ass" among
    [details.words_found]. *)
Theorem password_is_toxic (body : ScanRequest) (e : ScannerResult) :
  e ∈ applied_scanners_results (Fallback.fallbackResponse body) →
  scanner_name e = "toxicity" →
  occurs_ignoring_case (prompt body) "password" →
  is_valid e = false
  ∧ risk_score e = JNum 0.9
  ∧ ∃ words, JS.get (details e) "words_found" = Some (JArr words)
             ∧ JStr "ass" ∈ words.
Proof.
  intros Hin Hname Hocc. apply fallback_entry in Hin as [_ Hone].
  rewrite Hname, scan_one_toxicity in Hone. injection Hone as <-.
  assert (Fallback.mentions (prompt body) "ass" = true) as Hass
    by (by apply (occurs_inside _ "password")).
  assert (Fallback.hasToxicity (prompt body) = true) as Htox.
  { unfold Fallback.hasToxicity. apply existsb_exists. exists "ass".
    split; [simpl; tauto | exact Hass]. }
  cbn [is_valid risk_score details].
  unfold Fallback.toxicityValid, Fallback.toxicityRiskScore,
    Fallback.toxicityDetails. rewrite Htox.
  repeat split. eexists. split; [reflexivity|].
  apply list_elem_of_fmap. exists "ass". split; [done|].
  apply list_elem_of_In, filter_In. split; [simpl; tauto | exact Hass].
Qed.

Lemma password_is_toxic_witness :
  let body := {| prompt := "Reset my PASSWORD please";
                 scanners := Some ["toxicity"];
                 banned_substrings_list := None; regex_patterns_list := None |} in
  ∃ e, applied_scanners_results (Fallback.fallbackResponse body) = [e]
       ∧ scanner_name e = "toxicity"
       ∧ occurs_ignoring_case (prompt body) "password"
       ∧ is_valid e = false
       ∧ overall_is_valid (Fallback.fallbackResponse body) = false.
Proof.
  intros body.
  assert (occurs_ignoring_case (prompt body) "password") as Hocc
    by (exists "Reset my ", "PASSWORD", " please"; split; reflexivity).
  eassert (applied_scanners_results (Fallback.fallbackResponse body) = [_]) as Hres
    by (vm_compute; reflexivity).
  lazymatch type of Hres with
  | _ = [?e] =>
      exists e; split; [exact Hres|]; split; [reflexivity|];
      split; [exact Hocc|]; split; [|by vm_compute];
      refine (proj1 (password_is_toxic body e _ eq_refl Hocc));
      rewrite Hres; apply list_elem_of_here
  end.
Defined.

(** X4. In the fallback path the entries of [bansubstrings], [regex] and
    [code] are stubs: valid, with risk 0 and the prompt unchanged,
    whatever the prompt and whatever lists the request configures. *)
Theorem stub_scanners_never_flag (body : ScanRequest) (e : ScannerResult) :
  e ∈ applied_scanners_results (Fallback.fallbackResponse body) →
  scanner_name e ∈ [ "bansubstrings"; "regex"; "code" ] →
  is_valid e = true
  ∧ risk_score e = JNum 0
  ∧ sanitized_prompt e = JStr (prompt body)
  ∧ ∃ flag, details e = JObj [ (flag, JBool false) ].
Proof.
  intros Hin Hname. apply fallback_entry in Hin as [_ Hone].
  revert Hname Hone. generalize (scanner_name e) as name. intros name Hname.
  rewrite !elem_of_cons, elem_of_nil in Hname.
  destruct Hname as [-> | [-> | [-> | []]]]; intros [= <-];
    repeat split; by eexists.
Qed.

Lemma stub_scanners_never_flag_witness :
  let body := {| prompt := "drop the table, SELECT * FROM users";
                 scanners := Some ["bansubstrings"];
                 banned_substrings_list := Some ["drop the table"];
                 regex_patterns_list := None |} in
  ∃ e, applied_scanners_results (Fallback.fallbackResponse body) = [e]
       ∧ scanner_name e = "bansubstrings"
       ∧ is_valid e = true
       ∧ risk_score e = JNum 0.
Proof.
  intros body.
  eassert (applied_scanners_results (Fallback.fallbackResponse body) = [_]) as Hres
    by (vm_compute; reflexivity).
  lazymatch type of Hres with
  | _ = [?e] =>
      exists e; split; [exact Hres|]; split; [reflexivity|];
      refine (let H := stub_scanners_never_flag body e _ _ in
              conj (proj1 H) (proj1 (proj2 H)));
      [rewrite Hres; apply list_elem_of_here | apply list_elem_of_here]
  end.
Defined.

(** ** The other detection rules of the normaliser *)

Lemma own_put_ne (fields : list (string * jsval)) (k k' : string) (v : jsval) :
  k ≠ k' → JS.own (JS.put fields k v) k' = JS.own fields k'.
Proof.
  intros Hne. induction fields as [|[k0 v0] rest IH]; cbn [JS.put JS.own].
  - by destruct (String.eqb_spec k k').
  - destruct (String.eqb_spec k0 k) as [->|]; cbn [JS.own].
    + destruct (String.eqb_spec k k'); [done|]. reflexivity.
    + by rewrite IH.
Qed.

Section MoreRules.

Variable ToNumber_of : jsval → option float.

Lemma scanner_result_valid (apiData : jsval) (body : ScanRequest)
  (scannerName : string) (r : ScannerResult) :
  scanner_result apiData body scannerName = Some r →
  input_prompt r = prompt body
  ∧ is_valid r
    = if JS.truthy (sub_result apiData scannerName)
      then JS.not_false (JS.get_opt (sub_result apiData scannerName) "is_valid")
      else if scannerName =? "anonymize"
           then JS.not_false (JS.get_opt apiData "is_valid")
           else true.
Proof.
  unfold scanner_result, sub_result, JS.get_opt. intros H.
  destruct (scannerFieldMap scannerName) as [resultField|].
  - destruct (JS.get apiData resultField) as [result|] eqn:Hget; [|done].
    cbn [mbind option_bind default from_option id] in *. unfold id in *.
    destruct (JS.truthy result) eqn:Ht.
    + by injection H as <-.
    + destruct (JS.get apiData "sanitized_prompt"); [|done].
      by injection H as <-.
  - cbn [mbind option_bind JS.truthy] in *.
    destruct (JS.get apiData "sanitized_prompt"); [|done].
    by injection H as <-.
Qed.

(** What each branch of the detection rules does to a result. *)
Lemma apply_detection_cases (apiData : jsval) (scannerName : string)
  (r e : ScannerResult) :
  apply_detection ToNumber_of apiData scannerName r = Some e →
  input_prompt e = input_prompt r
  ∧ ((scannerName = "anonymize"
      ∧ JS.truthy (detection_of apiData "pii") = true
      ∧ is_valid e = is_valid r
      ∧ ∃ d, JS.set (details r) "pii_detected" (JBool true) = Some d
             ∧ JS.set d "entities" (detection_of apiData "pii") = Some (details e))
     ∨ (scannerName = "toxicity"
        ∧ JS.truthy (detection_of apiData "toxicity") = true)
     ∨ (scannerName = "bansubstrings"
        ∧ JS.truthy (detection_of apiData "banned_substrings") = true
        ∧ is_valid e
          = negb (JS.has_length (detection_of apiData "banned_substrings"))
        ∧ JS.set (details r) "banned_matches"
            (detection_of apiData "banned_substrings") = Some (details e))
     ∨ (e = r
        ∧ (scannerName = "anonymize" →
           JS.truthy (detection_of apiData "pii") = false)
        ∧ (scannerName = "toxicity" →
           JS.truthy (detection_of apiData "toxicity") = false)
        ∧ (scannerName = "bansubstrings" →
           JS.truthy (detection_of apiData "banned_substrings") = false))).
Proof.
  unfold apply_detection, detection_of. intros H.
  destruct (String.eqb_spec scannerName "anonymize") as [->|Ha];
    cbn [andb] in H.
  - destruct (JS.truthy (JS.get_opt (JS.get_opt apiData "detection") "pii")) eqn:Hp.
    + destruct (JS.set (details r) _ _) as [d|] eqn:Hd; [|done].
      cbn [mbind option_bind] in H.
      destruct (JS.set d _ _) as [d'|] eqn:Hd'; [|done].
      injection H as <-. split; [done|]. left. repeat split; try done.
      by exists d.
    + cbn in H. injection H as <-. split; [done|]. do 3 right. by repeat split.
  - destruct (String.eqb_spec scannerName "toxicity") as [->|Ht]; cbn [andb] in H.
    + destruct (JS.truthy (JS.get_opt (JS.get_opt apiData "detection") "toxicity"))
        eqn:Hp.
      * destruct (JS.set (details r) _ _) as [d|]; [|done].
        cbn [mbind option_bind] in H.
        destruct (toxicity_some _ _) as [hit|]; [|done].
        injection H as <-. split; [done|]. right; left. by split.
      * cbn in H. injection H as <-. split; [done|]. do 3 right. by repeat split.
    + destruct (String.eqb_spec scannerName "bansubstrings") as [->|Hb];
        cbn [andb] in H.
      * destruct (JS.truthy (JS.get_opt (JS.get_opt apiData "detection")
                               "banned_substrings")) eqn:Hp.
        -- destruct (JS.set (details r) _ _) as [d|] eqn:Hd; [|done].
           injection H as <-. split; [done|]. do 2 right; left. by repeat split.
        -- injection H as <-. split; [done|]. do 3 right. by repeat split.
      * injection H as <-. split; [done|]. do 3 right. by repeat split.
Qed.

Lemma normalize_one_inv (apiData : jsval) (body : ScanRequest)
  (scannerName : string) (e : ScannerResult) :
  normalize_one ToNumber_of apiData body scannerName = Some e →
  ∃ r, scanner_result apiData body scannerName = Some r
       ∧ apply_detection ToNumber_of apiData scannerName r = Some e.
Proof.
  unfold normalize_one. intros H.
  destruct (scanner_result _ _ _) as [r|]; [|done]. by exists r.
Qed.

End MoreRules.

(** X5. In the normaliser path, when [anonymize] is requested and the
    payload has a truthy [detection.pii], the anonymize entry gets
    [details.pii_detected = true] and [details.entities] equal to that
    value (its [details] being a mapping unless the backend sent an array
    there), and the rule leaves [is_valid] as the payload gave it: that
    of the [anonymize_result] sub-object if there is one, of the payload
    itself otherwise, false only for an explicit [false]. *)
Theorem pii_entities_rule (ToNumber_of : jsval → option float)
  (apiData : jsval) (body : ScanRequest) (response : ScanResponse)
  (e : ScannerResult) :
  normalize ToNumber_of apiData body = Some response →
  e ∈ applied_scanners_results response →
  scanner_name e = "anonymize" →
  JS.truthy (detection_of apiData "pii") = true →
  (JS.isArray (details e) = false →
   JS.get (details e) "pii_detected" = Some (JBool true)
   ∧ JS.get (details e) "entities" = Some (detection_of apiData "pii"))
  ∧ is_valid e
    = JS.not_false
        (JS.get_opt (if JS.truthy (sub_result apiData "anonymize")
                     then sub_result apiData "anonymize" else apiData)
           "is_valid").
Proof.
  intros Hn Hin Hname Hpii.
  destruct (normalize_entry _ _ _ _ _ Hn Hin) as [_ He]. rewrite Hname in He.
  apply normalize_one_inv in He as (r & Hr & He).
  apply scanner_result_valid in Hr as [_ Hv].
  apply apply_detection_cases in He as [_ Hcases].
  destruct Hcases as [(_ & _ & Hsame & d & Hd & Hd') | [[? _] | [[? _] | [_ [H _]]]]];
    try done; [|by rewrite H in Hpii].
  split.
  - intros Harr. destruct (details r) as [| | | | |items|fields]; try done;
      cbn [JS.set] in Hd; injection Hd as <-; cbn [JS.set] in Hd';
      injection Hd' as Hd'; rewrite <- Hd' in *; [done|].
    cbn [JS.get]. split; [|by rewrite own_put].
    rewrite own_put_ne; [by rewrite own_put | done].
  - rewrite Hsame, Hv, String.eqb_refl.
    by destruct (JS.truthy (sub_result apiData "anonymize")).
Qed.

Lemma pii_entities_rule_witness :
  let body := {| prompt := "Email me at jane@example.com";
                 scanners := Some ["anonymize"];
                 banned_substrings_list := None; regex_patterns_list := None |} in
  let pii := JArr [ JObj [ ("type", JStr "EMAIL"); ("start", JNum 12) ] ] in
  let apiData := JObj [ ("sanitized_prompt", JStr "Email me at [EMAIL]");
                        ("is_valid", JBool false);
                        ("risk_score", JNum 0.8);
                        ("detection", JObj [ ("pii", pii) ]) ] in
  JS.truthy (detection_of apiData "pii") = true
  ∧ ∀ ToNumber_of, ∃ response e,
      normalize ToNumber_of apiData body = Some response
      ∧ applied_scanners_results response = [e]
      ∧ JS.get (details e) "entities" = Some pii
      ∧ is_valid e = false.
Proof.
  intros body pii apiData. split; [reflexivity|]. intros ToNumber_of.
  eassert (normalize ToNumber_of apiData body = Some _) as Hn by reflexivity.
  lazymatch type of Hn with
  | _ = Some ?response =>
      exists response;
      eassert (applied_scanners_results response = [_]) as Hres by reflexivity;
      lazymatch type of Hres with
      | _ = [?e] =>
          exists e; split; [exact Hn|]; split; [exact Hres|];
          destruct (pii_entities_rule ToNumber_of apiData body response e Hn)
            as [Hd Hv]; [apply list_elem_of_here | reflexivity | reflexivity |];
          split; [exact (proj2 (Hd eq_refl)) | exact Hv]
      end
  end.
Defined.

(** X6. In the normaliser path, when [bansubstrings] is requested and the
    payload has an array under [detection.banned_substrings], the array
    is copied into [details.banned_matches] and the entry is valid
    exactly when the array is empty, whatever [is_valid] the
    [banned_substrings_result] sub-object carries: an empty array is
    truthy, so the rule applies to it as well. *)
Theorem banned_matches_rule (ToNumber_of : jsval → option float)
  (apiData : jsval) (body : ScanRequest) (response : ScanResponse)
  (e : ScannerResult) (matches : list jsval) :
  normalize ToNumber_of apiData body = Some response →
  e ∈ applied_scanners_results response →
  scanner_name e = "bansubstrings" →
  detection_of apiData "banned_substrings" = JArr matches →
  (is_valid e = true ↔ matches = [])
  ∧ (JS.isArray (details e) = false →
     JS.get (details e) "banned_matches" = Some (JArr matches)).
Proof.
  intros Hn Hin Hname Hdet.
  destruct (normalize_entry _ _ _ _ _ Hn Hin) as [_ He]. rewrite Hname in He.
  apply normalize_one_inv in He as (r & _ & He).
  apply apply_detection_cases in He as [_ Hcases].
  destruct Hcases as [[? _] | [[? _] | [(_ & _ & Hv & Hd) | (_ & _ & _ & H)]]];
    try done; [|by rewrite Hdet in H; specialize (H eq_refl)].
  rewrite Hdet in Hv, Hd. split.
  - rewrite Hv. cbn [JS.has_length]. rewrite negb_involutive.
    apply bool_decide_eq_true.
  - intros Harr. by eapply set_get.
Qed.

Lemma banned_matches_rule_witness :
  let body := {| prompt := "hi"; scanners := Some ["bansubstrings"];
                 banned_substrings_list := Some ["hello"];
                 regex_patterns_list := None |} in
  let apiData :=
    JObj [ ("sanitized_prompt", JStr "hi");
           ("banned_substrings_result",
             JObj [ ("is_valid", JBool false); ("risk_score", JNum 1) ]);
           ("detection", JObj [ ("banned_substrings", JArr []) ]) ] in
  detection_of apiData "banned_substrings" = JArr []
  ∧ ∀ ToNumber_of, ∃ response e,
      normalize ToNumber_of apiData body = Some response
      ∧ applied_scanners_results response = [e]
      ∧ is_valid e = true
      ∧ overall_is_valid response = true.
Proof.
  intros body apiData. split; [reflexivity|]. intros ToNumber_of.
  eassert (normalize ToNumber_of apiData body = Some _) as Hn by reflexivity.
  lazymatch type of Hn with
  | _ = Some ?response =>
      exists response;
      eassert (applied_scanners_results response = [_]) as Hres by reflexivity;
      lazymatch type of Hres with
      | _ = [?e] =>
          exists e; split; [exact Hn|]; split; [exact Hres|];
          destruct (banned_matches_rule ToNumber_of apiData body response e []
                      Hn) as [Hv _];
          [apply list_elem_of_here | reflexivity | reflexivity |];
          split; [exact (proj2 Hv eq_refl) | reflexivity]
      end
  end.
Defined.

(** X7. In the normaliser path, for a payload without a [detection]
    object (the flat legacy shape), an entry other than [anonymize] whose
    scanner has no sub-object in the payload is valid, with risk 0 and
    empty details, whatever the payload's own [is_valid] and
    [risk_score]: these are inherited by [anonymize] alone. *)
Theorem legacy_validity_is_anonymize_only (ToNumber_of : jsval → option float)
  (apiData : jsval) (body : ScanRequest) (response : ScanResponse)
  (e : ScannerResult) :
  normalize ToNumber_of apiData body = Some response →
  e ∈ applied_scanners_results response →
  scanner_name e ≠ "anonymize" →
  JS.truthy (sub_result apiData (scanner_name e)) = false →
  JS.truthy (JS.get_opt apiData "detection") = false →
  is_valid e = true ∧ risk_score e = JNum 0 ∧ details e = JObj [].
Proof.
  intros Hn Hin Hname Hsub Hdet.
  destruct (normalize_entry _ _ _ _ _ Hn Hin) as [_ He].
  apply normalize_one_inv in He as (r & Hr & He).
  assert (∀ kind, JS.truthy (detection_of apiData kind) = false) as Hnone.
  { intros kind. unfold detection_of.
    destruct (JS.get_opt apiData "detection"); try done;
      cbn in Hdet; try done; cbn; by destruct b. }
  apply apply_detection_cases in He as [_ Hcases].
  destruct Hcases as [(_ & H & _) | [[_ H] | [(_ & H & _) | [Heq _]]]];
    try (by rewrite Hnone in H). subst r.
  pose proof (scanner_result_valid _ _ _ _ Hr) as [_ Hv].
  apply scanner_result_inv in Hr as [(Ht & _) | (_ & _ & Hrisk & Hd)];
    [congruence|].
  rewrite Hsub in Hv.
  destruct (String.eqb_spec (scanner_name e) "anonymize"); [done|].
  by rewrite Hv, Hrisk, Hd.
Qed.

Lemma legacy_validity_is_anonymize_only_witness :
  let body := {| prompt := "my password"; scanners := Some ["secrets"];
                 banned_substrings_list := None; regex_patterns_list := None |} in
  let apiData := JObj [ ("sanitized_prompt", JStr "my password");
                        ("is_valid", JBool false);
                        ("risk_score", JNum 0.95) ] in
  JS.truthy (JS.get_opt apiData "detection") = false
  ∧ ∀ ToNumber_of, ∃ response e,
      normalize ToNumber_of apiData body = Some response
      ∧ applied_scanners_results response = [e]
      ∧ scanner_name e = "secrets"
      ∧ is_valid e = true
      ∧ overall_is_valid response = true.
Proof.
  intros body apiData. split; [reflexivity|]. intros ToNumber_of.
  eassert (normalize ToNumber_of apiData body = Some _) as Hn by reflexivity.
  lazymatch type of Hn with
  | _ = Some ?response =>
      exists response;
      eassert (applied_scanners_results response = [_]) as Hres by reflexivity;
      lazymatch type of Hres with
      | _ = [?e] =>
          exists e; split; [exact Hn|]; split; [exact Hres|];
          split; [reflexivity|];
          destruct (legacy_validity_is_anonymize_only ToNumber_of apiData body
                      response e Hn) as [Hv _];
          [apply list_elem_of_here | done | reflexivity | reflexivity |];
          split; [exact Hv | reflexivity]
      end
  end.
Defined.

(** ** Leaving the normaliser *)



Lemma scan_one_input (prompt scannerName : string) (e : ScannerResult) :
  Fallback.scan_one prompt scannerName = Some e → input_prompt e = prompt.
Proof.
  unfold Fallback.scan_one, Fallback.mock.
  name_cases scannerName; intros [= <-]; reflexivity.
Qed.

(** X9. Every response the handler builds, through the normaliser or the
    fallback, echoes the request: [original_prompt] and the
    [input_prompt] of every entry are the prompt of the request,
    whatever the backend sent. *)
Theorem built_response_echoes_prompt (ToNumber_of : jsval → option float)
  (body : ScanRequest) (remote : RemoteOutcome) :
  match POST ToNumber_of (Some body) remote with
  | Scanned response =>
      original_prompt response = prompt body
      ∧ Forall (λ e, input_prompt e = prompt body)
          (applied_scanners_results response)
  | Verbatim apiData => ∃ status, remote = Replied status (Parsed apiData)
  | InternalServerError => False
  end.
Proof.
  destruct (POST_cases ToNumber_of body remote)
    as [(apiData & status & ? & -> & -> & _)
       | [(response & ? & apiData & -> & _ & _ & Hn) | [-> _]]].
  - by exists status.
  - split.
    + unfold normalize in Hn. destruct (mapM _ _); [|done]. by injection Hn as <-.
    + apply Forall_forall. intros e Hin.
      destruct (normalize_entry _ _ _ _ _ Hn Hin) as [_ He].
      apply normalize_one_inv in He as (r & Hr & He).
      apply scanner_result_valid in Hr as [Hr _].
      apply apply_detection_cases in He as [He _]. congruence.
  - split; [reflexivity|]. apply Forall_forall. intros e Hin.
    apply fallback_entry in Hin as [_ Hone]. by eapply scan_one_input.
Qed.

(** * The second and third variants of the route *)

(** X10. The second variant answers a request whose body parses with
    status 200 and exactly one entry, named [anonymize], whatever
    scanners were requested and whether the reply comes from the backend
    or from the fallback; [overall_is_valid] and [final_sanitized_prompt]
    repeat the [is_valid] and [sanitized_prompt] of that entry. *)
Theorem V2_single_anonymize_entry (body : ScanRequest) (remote : RemoteOutcome) :
  reply_status (V2.POST (Some body) remote) = 200
  ∧ JS.get (reply_body (V2.POST (Some body) remote)) "original_prompt"
    = Some (JStr (prompt body))
  ∧ ∃ entry,
      JS.get (reply_body (V2.POST (Some body) remote)) "applied_scanners_results"
      = Some (JArr [entry])
      ∧ JS.get entry "scanner_name" = Some (JStr "anonymize")
      ∧ JS.get entry "input_prompt" = Some (JStr (prompt body))
      ∧ JS.get entry "is_valid"
        = JS.get (reply_body (V2.POST (Some body) remote)) "overall_is_valid"
      ∧ JS.get entry "sanitized_prompt"
        = JS.get (reply_body (V2.POST (Some body) remote)) "final_sanitized_prompt".
Proof.
  cbn [V2.POST reply_status reply_body]. split; [reflexivity|].
  destruct (V2.proxy body remote) as [r|] eqn:Hp; cbn [default].
  - destruct remote as [|status [|apiData]]; cbn [V2.proxy] in Hp; try done;
      destruct (ok status); try done.
    unfold V2.response in Hp.
    destruct (JS.get apiData "sanitized_prompt") as [top|]; [|done].
    injection Hp as <-. split; [reflexivity|]. eexists. repeat split.
  - split; [reflexivity|]. eexists. repeat split.
Qed.

Lemma V2_max_chain (pii tox sec : bool) :
  (let r0 := 0.1%float in
   let r1 := if pii then Math_max r0 0.8 else r0 in
   let r2 := if tox then Math_max r1 0.9 else r1 in
   if sec then Math_max r2 0.95 else r2)
  = (if sec then 0.95 else if tox then 0.9 else if pii then 0.8 else 0.1)%float.
Proof. by destruct pii, tox, sec. Qed.

(** X11. In the fallback of the second variant the risk score is the
    score of the gravest check that triggers: 0.95 for a secret keyword,
    else 0.9 for a toxic word, else 0.8 for PII, else 0.1; it lies in
    [0, 1]. PII raises the score but does not invalidate: the response is
    invalid exactly when a toxic word or a secret keyword is found. *)
Theorem V2_fallback_risk (body : ScanRequest) :
  V2.riskScore (prompt body)
  = (if V2.hasSecrets (prompt body) then 0.95
     else if V2.hasToxicity (prompt body) then 0.9
     else if V2.hasPII (prompt body) then 0.8 else 0.1)%float
  ∧ in_unit_interval (V2.riskScore (prompt body)) = true
  ∧ ∃ entry,
      JS.get (V2.fallbackResponse body) "applied_scanners_results"
      = Some (JArr [entry])
      ∧ JS.get entry "risk_score" = Some (JNum (V2.riskScore (prompt body)))
      ∧ JS.get entry "is_valid"
        = Some (JBool (negb (V2.hasToxicity (prompt body)
                             || V2.hasSecrets (prompt body)))).
Proof.
  assert (V2.riskScore (prompt body)
          = (if V2.hasSecrets (prompt body) then 0.95
             else if V2.hasToxicity (prompt body) then 0.9
             else if V2.hasPII (prompt body) then 0.8 else 0.1)%float) as Hr
    by apply V2_max_chain.
  split; [exact Hr|]. split.
  - rewrite Hr. by repeat case_match.
  - eexists. repeat split.
Qed.

Lemma no_detection (apiData : jsval) (kind : string) :
  JS.truthy (JS.get_opt apiData "detection") = false →
  JS.truthy (detection_of apiData kind) = false.
Proof.
  intros Hdet. unfold detection_of.
  destruct (JS.get_opt apiData "detection"); try done;
    cbn in Hdet; try done; cbn; by destruct b.
Qed.

Lemma apply_detection_off (ToNumber_of : jsval → option float)
  (apiData : jsval) (scannerName : string) (r : ScannerResult) :
  JS.truthy (JS.get_opt apiData "detection") = false →
  apply_detection ToNumber_of apiData scannerName r = Some r.
Proof.
  intros Hdet. unfold apply_detection.
  fold (detection_of apiData "pii"). fold (detection_of apiData "toxicity").
  fold (detection_of apiData "banned_substrings").
  by rewrite !no_detection, !andb_false_r.
Qed.

(** X12. The two variants read a legacy payload that carries no
    [is_valid] differently. For a successful reply whose payload has no
    [is_valid], no [detection] and no sub-object for a requested scanner,
    the first variant answers [overall_is_valid = true] (only an explicit
    [false] invalidates), the second [overall_is_valid = false]
    ([apiData.is_valid || false]). *)
Theorem missing_is_valid_diverges (ToNumber_of : jsval → option float)
  (body : ScanRequest) (status : nat) (apiData : jsval) :
  ok status = true →
  JS.get apiData "is_valid" = Some JUndefined →
  JS.isArray (JS.get_opt apiData "applied_scanners_results") = false →
  JS.truthy (JS.get_opt apiData "detection") = false →
  Forall (λ name, JS.truthy (sub_result apiData name) = false)
    (requestedScanners body) →
  (∃ response,
     POST ToNumber_of (Some body) (Replied status (Parsed apiData))
     = Scanned response
     ∧ overall_is_valid response = true)
  ∧ JS.get (reply_body (V2.POST (Some body) (Replied status (Parsed apiData))))
      "overall_is_valid" = Some (JBool false).
Proof.
  intros Hok Hvalid Hnot Hdet Hsubs.
  assert (∀ k, is_Some (JS.get apiData k)) as Hget.
  { intros k. destruct apiData; cbn in Hvalid |- *; by eauto. }
  split.
  - assert (∀ name, name ∈ requestedScanners body →
              ∃ e, normalize_one ToNumber_of apiData body name = Some e
                   ∧ is_valid e = true) as Hone.
    { intros name Hin. rewrite Forall_forall in Hsubs.
      destruct (scanner_result_is_Some apiData body name (Hget "detection"))
        as [r Hr].
      exists r. unfold normalize_one. rewrite Hr. cbn [mbind option_bind].
      split; [by apply apply_detection_off|].
      apply scanner_result_valid in Hr as [_ ->]. rewrite (Hsubs _ Hin).
      unfold JS.get_opt. rewrite Hvalid. by destruct (name =? "anonymize"). }
    assert (∃ results,
              mapM (normalize_one ToNumber_of apiData body) (requestedScanners body)
              = Some results ∧ forallb is_valid results = true)
      as (results & Hm & Hall).
    { clear Hsubs. induction (requestedScanners body) as [|name names IH].
      - by exists [].
      - destruct (Hone name) as (e & He & Hv); [left|].
        destruct IH as (results & Hm & Hall).
        { intros n Hn. apply Hone. by right. }
        exists (e :: results). cbn. rewrite He. cbn. rewrite Hm. cbn.
        by rewrite Hv, Hall. }
    exists {| original_prompt := prompt body;
              final_sanitized_prompt :=
                JS.or (JS.get_opt apiData "sanitized_prompt") (JStr (prompt body));
              overall_is_valid := every_is_valid results;
              applied_scanners_results := results |}.
    split; [|exact Hall].
    cbn [POST proxy]. rewrite Hok.
    destruct (Hget "applied_scanners_results") as [asr Hasr]. rewrite Hasr.
    cbn [mbind option_bind]. unfold JS.get_opt in Hnot. rewrite Hasr in Hnot.
    cbn in Hnot. rewrite Hnot, andb_false_r. unfold normalize. rewrite Hm.
    reflexivity.
  - cbn [V2.POST reply_body V2.proxy]. rewrite Hok. unfold V2.response.
    destruct (Hget "sanitized_prompt") as [top ->]. cbn [mbind option_bind default].
    cbn. unfold JS.get_opt. by rewrite Hvalid.
Qed.

Lemma missing_is_valid_diverges_witness :
  let body := {| prompt := "hello"; scanners := Some ["anonymize"; "secrets"];
                 banned_substrings_list := None; regex_patterns_list := None |} in
  let apiData := JObj [ ("sanitized_prompt", JStr "hello");
                        ("risk_score", JNum 0) ] in
  JS.get apiData "is_valid" = Some JUndefined
  ∧ ∀ ToNumber_of,
      (∃ response,
         POST ToNumber_of (Some body) (Replied 200 (Parsed apiData))
         = Scanned response
         ∧ overall_is_valid response = true)
      ∧ JS.get (reply_body (V2.POST (Some body) (Replied 200 (Parsed apiData))))
          "overall_is_valid" = Some (JBool false).
Proof.
  intros body apiData. split; [reflexivity|]. intros ToNumber_of.
  apply (missing_is_valid_diverges ToNumber_of body 200 apiData);
    try reflexivity.
  repeat apply List.Forall_cons; try apply List.Forall_nil; reflexivity.
Defined.

(** X13. The third variant has no fallback: when the call of the backend
    fails, its answer is an error object and never a scan response, with
    status 500 or with the status of the backend's reply that was not
    [ok]. *)
Theorem V3_failure_is_an_error (body : ScanRequest) (remote : RemoteOutcome) :
  backend_failed remote →
  (∃ message, reply_body (V3.POST (Some body) remote) = JObj [ ("error", message) ])
  ∧ (reply_status (V3.POST (Some body) remote) = 500
     ∨ ∃ status reply,
         remote = Replied status reply ∧ ok status = false
         ∧ reply_status (V3.POST (Some body) remote) = status).
Proof.
  intros Hfail. cbn [V3.POST].
  destruct remote as [e | status reply]; cbn [V3.attempt default].
  - split; [by eexists | by left].
  - destruct (ok status) eqn:Hok.
    + destruct Hfail as [? | ->]; [congruence|]. cbn.
      split; [by eexists | by left].
    + unfold V3.error_reply.
      destruct (JS.get _ "error") as [error|]; cbn [mbind option_bind default];
        [|split; [by eexists | by left]].
      destruct (V3.accepts_status status); cbn [default reply_body reply_status].
      * split; [by eexists|]. right. by exists status, reply.
      * split; [by eexists | by left].
Qed.

Lemma V3_failure_is_an_error_witness :
  let body := {| prompt := "hi"; scanners := None;
                 banned_substrings_list := None; regex_patterns_list := None |} in
  Forall (λ remote,
            backend_failed remote
            ∧ ∃ message,
                reply_body (V3.POST (Some body) remote) = JObj [ ("error", message) ])
    [ FetchFailed ConnectionRefused;
      Replied 503 (Parsed (JObj [ ("error", JStr "unavailable") ]));
      Replied 200 Unparsable ].
Proof.
  intros body.
  repeat apply List.Forall_cons; try apply List.Forall_nil; cbv beta;
    lazymatch goal with
    | |- backend_failed ?remote ∧ _ =>
        assert (backend_failed remote) as Hfail
          by (cbn; first [ exact I | left; reflexivity | right; reflexivity ]);
        split; [exact Hfail|];
        exact (proj1 (V3_failure_is_an_error body remote Hfail))
    end.
Defined.



(** * The scanner page *)

Lemma falsy_number_below (x t : float) :
  (PrimFloat.eqb x 0 || PrimFloat.is_nan x) = true →
  PrimFloat.ltb 0 t = true →
  PrimFloat.ltb t x = false.
Proof.
  intros Hx Ht. rewrite FloatAxioms.ltb_spec in *.
  unfold PrimFloat.is_nan in Hx. rewrite !FloatAxioms.eqb_spec in Hx.
  change (FloatOps.Prim2SF 0) with (SpecFloat.S754_zero false) in *.
  destruct (FloatOps.Prim2SF x) as [s | s | | s m e].
  - destruct (FloatOps.Prim2SF t) as [|[]| |[]];
      try reflexivity; discriminate Ht.
  - destruct s; discriminate Hx.
  - destruct (FloatOps.Prim2SF t) as [|[]| |[]]; reflexivity.
  - exfalso. unfold SpecFloat.SFeqb in Hx. cbn in Hx.
    destruct s; cbn in Hx; rewrite Z.compare_refl, Pos.compare_refl in Hx;
      discriminate Hx.
Qed.

(** X15. What the page passes to [getRiskLevel] (line 1543) is the
    [risk_score] of the one entry it stored, [data.risk_score || 0]. For
    a reply whose [risk_score] is a number the coalescing never changes
    the level shown: the numbers it replaces by 0 (0, -0 and NaN) are at
    level Low as 0 is. For a reply without a truthy [risk_score], as the
    replies of the route are, the score shown is 0 and the level Low. *)
Theorem shown_risk_level (text : string) (data stored : jsval) :
  Page.setApiResponse text data = Some stored →
  ∃ entry risk,
    JS.get stored "applied_scanners_results" = Some (JArr [entry])
    ∧ JS.get entry "risk_score" = Some risk
    ∧ (∀ x, JS.get_opt data "risk_score" = JNum x →
            ∃ y, risk = JNum y ∧ Page.getRiskLevel y = Page.getRiskLevel x)
    ∧ (JS.truthy (JS.get_opt data "risk_score") = false →
       risk = JNum 0 ∧ Page.getRiskLevel 0 = (Page.Low, "text-green-400")).
Proof.
  unfold Page.setApiResponse. intros Hs.
  destruct (JS.get data "sanitized_prompt") as [top|]; [|done].
  injection Hs as <-. do 2 eexists.
  split; [reflexivity|]. split; [reflexivity|]. split.
  - intros x ->. unfold JS.or. cbn [JS.truthy].
    destruct (PrimFloat.eqb x 0 || PrimFloat.is_nan x) eqn:Hx; cbn [negb].
    + exists 0%float. split; [reflexivity|]. unfold Page.getRiskLevel.
      rewrite !(falsy_number_below x) by done. reflexivity.
    + by exists x.
  - intros Hrisk. unfold JS.or. by rewrite Hrisk.
Qed.

Lemma shown_risk_level_witness :
  let body := {| prompt := "Email me at jane@example.com";
                 scanners := Some ["anonymize"];
                 banned_substrings_list := None; regex_patterns_list := None |} in
  risk_score <$> applied_scanners_results (Fallback.fallbackResponse body)
  = [ JNum 0.8 ]
  ∧ ∃ stored entry,
      Page.setApiResponse (prompt body)
        (ScanResponse_json (Fallback.fallbackResponse body)) = Some stored
      ∧ JS.get stored "applied_scanners_results" = Some (JArr [entry])
      ∧ JS.get entry "risk_score" = Some (JNum 0).
Proof.
  intros body. split; [by vm_compute|].
  eassert (Page.setApiResponse (prompt body)
             (ScanResponse_json (Fallback.fallbackResponse body)) = Some _) as Hs
    by reflexivity.
  destruct (shown_risk_level _ _ _ Hs) as (entry & risk & He & Hr & _ & Hlow).
  destruct (Hlow eq_refl) as [-> _].
  eexists. exists entry. split; [exact Hs|]. split; [exact He | exact Hr].
Defined.

(** ** Selecting scanners *)

Lemma filter_other_elem (l : list string) (x s : string) :
  s ∈ List.filter (λ t, negb (t =? x)) l ↔ s ∈ l ∧ s ≠ x.
Proof.
  rewrite !list_elem_of_In, filter_In, negb_true_iff, String.eqb_neq.
  reflexivity.
Qed.

Lemma filter_other_absent (l : list string) (x : string) :
  x ∉ l → List.filter (λ t, negb (t =? x)) l = l.
Proof.
  induction l as [|y l IH]; [done|]. rewrite not_elem_of_cons. intros [Hne Hl].
  cbn. destruct (String.eqb_spec y x); [congruence|]. cbn. by rewrite IH.
Qed.

Lemma filter_other_NoDup (l : list string) (x : string) :
  NoDup l → NoDup (List.filter (λ t, negb (t =? x)) l).
Proof.
  induction 1 as [|y l Hy _ IH]; cbn; [constructor|].
  destruct (negb (y =? x)); [|exact IH].
  constructor; [|exact IH]. rewrite filter_other_elem. tauto.
Qed.

Lemma handleScannerChange_flips_NoDup (prev : list string) (scannerId : string) :
  NoDup prev → NoDup (Page.handleScannerChange prev scannerId).
Proof.
  unfold Page.handleScannerChange. intros Hnd.
  destruct (bool_decide_reflect (scannerId ∈ prev)) as [Hin|Hout].
  - by apply filter_other_NoDup.
  - apply NoDup_app. split; [exact Hnd|]. split.
    + intros s Hs ->%list_elem_of_singleton. done.
    + apply NoDup_singleton.
Qed.

(** X16. Ticking a scanner flips its membership in the selection, leaves
    the membership of every other scanner as it was, and a selection
    that holds no scanner twice still holds none twice afterwards. *)
Theorem handleScannerChange_flips (prev : list string) (scannerId : string) :
  (scannerId ∈ Page.handleScannerChange prev scannerId ↔ scannerId ∉ prev)
  ∧ (∀ s, s ≠ scannerId →
          (s ∈ Page.handleScannerChange prev scannerId ↔ s ∈ prev))
  ∧ (NoDup prev → NoDup (Page.handleScannerChange prev scannerId)).
Proof.
  unfold Page.handleScannerChange.
  destruct (bool_decide_reflect (scannerId ∈ prev)) as [Hin|Hout].
  - split; [|split].
    + rewrite filter_other_elem. tauto.
    + intros s Hne. rewrite filter_other_elem. tauto.
    + apply filter_other_NoDup.
  - split; [|split].
    + rewrite elem_of_app, list_elem_of_singleton. tauto.
    + intros s Hne. rewrite elem_of_app, list_elem_of_singleton. tauto.
    + intros Hnd.
      pose proof (handleScannerChange_flips_NoDup prev scannerId Hnd) as H.
      unfold Page.handleScannerChange in H.
      by rewrite bool_decide_eq_false_2 in H.
Qed.

Lemma collapsed_from_NoDup (seen names : list string) :
  NoDup names → (∀ s, s ∈ names → s ∉ seen) →
  collapsed_from seen names = names.
Proof.
  intros Hnd. revert seen. induction Hnd as [|name names Hname _ IH];
    intros seen Hseen; cbn [collapsed_from]; [done|].
  rewrite bool_decide_eq_false_2 by (apply Hseen; left).
  f_equal. apply IH. intros s Hs. rewrite not_elem_of_cons. split.
  - intros ->. done.
  - apply Hseen. by right.
Qed.

Lemma selection_NoDup (ticks sel : list string) :
  NoDup sel → NoDup (fold_left Page.handleScannerChange ticks sel).
Proof.
  revert sel. induction ticks as [|t ticks IH]; intros sel Hsel; [exact Hsel|].
  cbn [fold_left]. apply IH. by apply handleScannerChange_flips_NoDup.
Qed.

(** X17. Starting from the initial selection [["anonymize"]], whatever
    boxes are ticked in whatever order, the selection never holds a
    scanner twice: the [scanners] list the page sends is its own
    duplicate-free form. *)
Theorem selection_never_repeats (ticks : list string) :
  NoDup (fold_left Page.handleScannerChange ticks ["anonymize"])
  ∧ collapsed (fold_left Page.handleScannerChange ticks ["anonymize"])
    = fold_left Page.handleScannerChange ticks ["anonymize"].
Proof.
  assert (NoDup (fold_left Page.handleScannerChange ticks ["anonymize"])) as Hnd
    by apply selection_NoDup, NoDup_singleton.
  split; [exact Hnd|]. apply collapsed_from_NoDup; [exact Hnd|].
  intros s _. apply not_elem_of_nil.
Qed.

(** X18. Ticking the same box twice: a scanner that was not selected is
    added and removed again, and the selection is as before; a scanner
    that was selected is removed and added again at the end, so it moves
    behind the others. *)
Theorem handleScannerChange_twice (prev : list string) (scannerId : string) :
  let twice :=
    Page.handleScannerChange (Page.handleScannerChange prev scannerId) scannerId in
  (scannerId ∉ prev → twice = prev)
  ∧ (scannerId ∈ prev →
     twice = (List.filter (λ s, negb (s =? scannerId)) prev ++ [scannerId])%list).
Proof.
  cbn zeta. unfold Page.handleScannerChange. split; intros Hin.
  - rewrite (bool_decide_eq_false_2 _ Hin).
    rewrite bool_decide_eq_true_2
      by (rewrite elem_of_app, list_elem_of_singleton; tauto).
    rewrite List.filter_app, filter_other_absent by done.
    cbn. rewrite String.eqb_refl. cbn. apply app_nil_r.
  - rewrite (bool_decide_eq_true_2 _ Hin).
    rewrite bool_decide_eq_false_2; [done|].
    rewrite filter_other_elem. tauto.
Qed.

(** ** Trimming *)

Lemma trimStart_empty (s : string) :
  Page.trimStart s = "" ↔ whitespace_only s = true.
Proof.
  unfold whitespace_only. induction s as [|c s IH]; [done|].
  cbn [Page.trimStart avoids]. destruct (Chars.is_space c); cbn; [exact IH|].
  split; discriminate.
Qed.

Lemma trimStart_head (s : string) (c : ascii) (r : string) :
  Page.trimStart s = String c r → Chars.is_space c = false.
Proof.
  induction s as [|d s IH]; [done|]. cbn [Page.trimStart].
  destruct (Chars.is_space d) eqn:Hd; [exact IH|]. by intros [= <- _].
Qed.

Lemma trimEnd_head (c : ascii) (r : string) :
  Chars.is_space c = false → ∃ r', Page.trimEnd (String c r) = String c r'.
Proof.
  intros Hc. cbn [Page.trimEnd]. destruct (Page.trimEnd r); rewrite ?Hc; eauto.
Qed.

Lemma trimEnd_idem (s : string) :
  Page.trimEnd (Page.trimEnd s) = Page.trimEnd s.
Proof.
  induction s as [|c s IH]; [done|]. cbn [Page.trimEnd].
  destruct (Page.trimEnd s) as [|d t] eqn:Ht.
  - destruct (Chars.is_space c) eqn:Hc; [done|]. cbn. by rewrite Hc.
  - cbn [Page.trimEnd] in *. by rewrite IH.
Qed.

Lemma trim_idem (s : string) : Page.trim (Page.trim s) = Page.trim s.
Proof.
  unfold Page.trim. destruct (Page.trimStart s) as [|c r] eqn:Hs; [done|].
  pose proof (trimStart_head _ _ _ Hs) as Hc.
  destruct (trimEnd_head c r Hc) as [r' Hr]. rewrite Hr.
  cbn [Page.trimStart]. rewrite Hc, <- Hr. apply trimEnd_idem.
Qed.

Lemma trim_empty (s : string) : Page.trim s = "" ↔ whitespace_only s = true.
Proof.
  rewrite <- trimStart_empty. unfold Page.trim.
  destruct (Page.trimStart s) as [|c r] eqn:Hs; [done|].
  pose proof (trimStart_head _ _ _ Hs) as Hc.
  destruct (trimEnd_head c r Hc) as [r' ->]. split; discriminate.
Qed.

(** ** The lists of banned substrings and of patterns *)

(** X19. The handlers that add and remove a banned substring (and the
    same two for regex patterns) keep the list free of repetitions, of
    empty entries and of entries with whitespace around them. *)
Theorem chips_stay_ok (st : Page.Chips) (subToRemove : string) :
  chips_ok (Page.entries st) →
  chips_ok (Page.entries (Page.handleAddSubstring st))
  ∧ chips_ok (Page.entries (Page.handleRemoveSubstring st subToRemove))
  ∧ chips_ok (Page.entries (Page.handleAddRegexPattern st))
  ∧ chips_ok (Page.entries (Page.handleRemoveRegexPattern st subToRemove)).
Proof.
  intros [Hnd Hall].
  assert (chips_ok (Page.entries (Page.handleAddSubstring st))) as Hadd.
  { unfold Page.handleAddSubstring.
    destruct (String.eqb_spec (Page.trim (Page.current st)) "") as [|Hne];
      [done|].
    destruct (bool_decide_reflect
                (Page.trim (Page.current st) ∈ Page.entries st)) as [|Hout];
      [done|].
    cbn. split.
    - apply NoDup_app. split; [exact Hnd|]. split; [|apply NoDup_singleton].
      intros t Ht ->%list_elem_of_singleton. done.
    - apply Forall_app. split; [exact Hall|].
      apply List.Forall_cons; [|apply List.Forall_nil].
      split; [exact Hne | apply trim_idem]. }
  assert (chips_ok (Page.entries (Page.handleRemoveSubstring st subToRemove)))
    as Hrem.
  { cbn. split; [by apply filter_other_NoDup|].
    rewrite Forall_forall in Hall |- *.
    intros t [Ht _]%filter_other_elem. by apply Hall. }
  done.
Qed.

Lemma chips_stay_ok_witness :
  let st := {| Page.entries := ["secret plan"]; Page.current := "  budget " |} in
  chips_ok (Page.entries st)
  ∧ Page.entries (Page.handleAddSubstring st) = ["secret plan"; "budget"]
  ∧ chips_ok (Page.entries (Page.handleAddSubstring st)).
Proof.
  cbn zeta.
  assert (chips_ok ["secret plan"]) as Hok.
  { split; [apply NoDup_singleton|].
    apply List.Forall_cons; [|apply List.Forall_nil]. by vm_compute. }
  split; [exact Hok|]. split; [by vm_compute|].
  exact (proj1 (chips_stay_ok
    {| Page.entries := ["secret plan"]; Page.current := "  budget " |} "" Hok)).
Defined.

(** X20. Adding the text of the input box and then removing the new
    entry gives the list back: when the trimmed text is not empty and
    not yet in the list, the add appends it and clears the box, and the
    remove of that entry restores the entries. *)
Theorem add_then_remove (st : Page.Chips) :
  Page.trim (Page.current st) ≠ "" →
  Page.trim (Page.current st) ∉ Page.entries st →
  Page.current (Page.handleAddSubstring st) = ""
  ∧ Page.trim (Page.current st) ∈ Page.entries (Page.handleAddSubstring st)
  ∧ Page.entries (Page.handleRemoveSubstring (Page.handleAddSubstring st)
                    (Page.trim (Page.current st)))
    = Page.entries st.
Proof.
  intros Hne Hout. unfold Page.handleAddSubstring.
  destruct (String.eqb_spec (Page.trim (Page.current st)) ""); [done|].
  rewrite (bool_decide_eq_false_2 _ Hout). cbn.
  split; [done|]. split.
  - rewrite elem_of_app, list_elem_of_singleton. tauto.
  - rewrite List.filter_app, filter_other_absent by done.
    cbn. rewrite String.eqb_refl. cbn. apply app_nil_r.
Qed.

Lemma add_then_remove_witness :
  let st := {| Page.entries := ["secret plan"]; Page.current := "  budget " |} in
  Page.trim (Page.current st) = "budget"
  ∧ Page.entries (Page.handleRemoveSubstring (Page.handleAddSubstring st) "budget")
    = ["secret plan"].
Proof.
  cbn zeta. split; [by vm_compute|].
  refine (proj2 (proj2 (add_then_remove
    {| Page.entries := ["secret plan"]; Page.current := "  budget " |} _ _))).
  - by vm_compute.
  - vm_compute. intros H. apply list_elem_of_In in H. cbn in H.
    destruct H as [H|[]]. discriminate H.
Defined.

(** ** Submitting a prompt *)

(** X21. The page refuses to send exactly when the prompt is made of
    whitespace only or no scanner is selected; otherwise it sends the
    prompt as typed, not trimmed, with the selection as [scanners], and
    attaches a list of banned substrings or of patterns exactly when the
    scanner is selected and the list is not empty. *)
Theorem handleScanPrompt_cases (text : string)
  (selectedScanners customBannedSubstrings customRegexPatterns : list string) :
  match Page.handleScanPrompt text selectedScanners
          customBannedSubstrings customRegexPatterns with
  | Page.Refused _ => whitespace_only text = true ∨ selectedScanners = []
  | Page.Submitted body =>
      whitespace_only text = false ∧ selectedScanners ≠ []
      ∧ prompt body = text
      ∧ requestedScanners body = selectedScanners
      ∧ banned_substrings_list body
        = (if bool_decide ("bansubstrings" ∈ selectedScanners
                           ∧ customBannedSubstrings ≠ [])
           then Some customBannedSubstrings else None)
      ∧ regex_patterns_list body
        = (if bool_decide ("regex" ∈ selectedScanners
                           ∧ customRegexPatterns ≠ [])
           then Some customRegexPatterns else None)
  end.
Proof.
  unfold Page.handleScanPrompt.
  destruct (String.eqb_spec (Page.trim text) "") as [He|Hne].
  - left. by apply trim_empty.
  - destruct (bool_decide_reflect (selectedScanners = [])) as [|Hsel];
      [by right|].
    cbn. split.
    { destruct (whitespace_only text) eqn:Hw; [|done].
      by apply trim_empty in Hw. }
    split; [done|]. split; [done|]. split; [done|].
    split.
    + destruct (bool_decide_reflect ("bansubstrings" ∈ selectedScanners));
        destruct (bool_decide_reflect (customBannedSubstrings = []));
        cbn; case_bool_decide; tauto || done.
    + destruct (bool_decide_reflect ("regex" ∈ selectedScanners));
        destruct (bool_decide_reflect (customRegexPatterns = []));
        cbn; case_bool_decide; tauto || done.
Qed.

Lemma selection_kinds (ticks sel : list string) :
  Forall (λ t, t ∈ scannerKinds) ticks →
  Forall (λ t, t ∈ scannerKinds) sel →
  Forall (λ t, t ∈ scannerKinds) (fold_left Page.handleScannerChange ticks sel).
Proof.
  intros Hticks. revert sel.
  induction Hticks as [|t ticks Ht _ IH]; intros sel Hsel; [exact Hsel|].
  cbn [fold_left]. apply IH. unfold Page.handleScannerChange.
  case_bool_decide.
  - rewrite Forall_forall in Hsel |- *.
    intros s [Hs _]%filter_other_elem. by apply Hsel.
  - apply Forall_app. split; [exact Hsel|].
    apply List.Forall_cons; [exact Ht | apply List.Forall_nil].
Qed.

Lemma filter_kinds (names : list string) :
  Forall (λ t, t ∈ scannerKinds) names →
  List.filter is_scanner_kind names = names.
Proof.
  induction 1 as [|name names Hname _ IH]; [done|].
  cbn [List.filter]. unfold is_scanner_kind at 1.
  rewrite (bool_decide_eq_true_2 _ Hname). by rewrite IH.
Qed.

(** X22. The page and the fallback of the first variant together: when
    the boxes ticked are those of the six scanners the page offers, the
    prompt is not blank and a scanner is left selected, the page sends a
    request whose fallback response has exactly one result per selected
    scanner, in the order of the selection, none twice. *)
Theorem page_request_one_result_per_scanner (ticks : list string)
  (text : string) (customBannedSubstrings customRegexPatterns : list string) :
  Forall (λ t, t ∈ scannerKinds) ticks →
  whitespace_only text = false →
  fold_left Page.handleScannerChange ticks ["anonymize"] ≠ [] →
  ∃ body,
    Page.handleScanPrompt text
      (fold_left Page.handleScannerChange ticks ["anonymize"])
      customBannedSubstrings customRegexPatterns = Page.Submitted body
    ∧ scanner_names (Fallback.fallbackResponse body)
      = fold_left Page.handleScannerChange ticks ["anonymize"]
    ∧ NoDup (scanner_names (Fallback.fallbackResponse body)).
Proof.
  intros Hticks Htext Hsel.
  assert (Forall (λ t, t ∈ scannerKinds)
            (fold_left Page.handleScannerChange ticks ["anonymize"])) as Hkinds.
  { apply selection_kinds; [exact Hticks|].
    apply List.Forall_cons; [|apply List.Forall_nil].
    apply list_elem_of_In. cbn. tauto. }
  assert (NoDup (fold_left Page.handleScannerChange ticks ["anonymize"])) as Hnd
    by apply selection_NoDup, NoDup_singleton.
  revert Hsel Hkinds Hnd.
  generalize (fold_left Page.handleScannerChange ticks ["anonymize"]) as sel.
  intros sel Hsel Hkinds Hnd. unfold Page.handleScanPrompt.
  destruct (String.eqb_spec (Page.trim text) "") as [He|_].
  { apply trim_empty in He. congruence. }
  rewrite (bool_decide_eq_false_2 _ Hsel). eexists. split; [reflexivity|].
  rewrite fallback_names. unfold requestedScanners. cbn [scanners default from_option id].
  unfold id. by rewrite filter_kinds.
Qed.

Lemma page_request_one_result_per_scanner_witness :
  fold_left Page.handleScannerChange ["toxicity"; "anonymize"; "code"] ["anonymize"]
  = ["toxicity"; "code"]
  ∧ ∃ body,
      Page.handleScanPrompt "hello"
        (fold_left Page.handleScannerChange ["toxicity"; "anonymize"; "code"]
           ["anonymize"]) [] [] = Page.Submitted body
      ∧ scanner_names (Fallback.fallbackResponse body)
        = fold_left Page.handleScannerChange ["toxicity"; "anonymize"; "code"]
            ["anonymize"]
      ∧ NoDup (scanner_names (Fallback.fallbackResponse body)).
Proof.
  split; [by vm_compute|].
  apply (page_request_one_result_per_scanner
           ["toxicity"; "anonymize"; "code"] "hello" [] []).
  - repeat (apply List.Forall_cons; [apply list_elem_of_In; cbn; tauto|]).
    apply List.Forall_nil.
  - by vm_compute.
  - by vm_compute.
Defined.

(** X23. The page reads a reply as the backend's old single-scanner
    shape ([sanitized_prompt], [is_valid], [risk_score], [details]). A
    reply in the shape the route variants build has none of these
    members, so whatever the route answered, the page shows the prompt
    as typed, one "anonymize" result with risk 0 and no details, and an
    undefined validity. *)
Theorem page_drops_route_results (text : string) (body : ScanRequest)
  (remote : RemoteOutcome) :
  let shown :=
    Some (JObj
      [ ("original_prompt", JStr text);
        ("final_sanitized_prompt", JStr text);
        ("overall_is_valid", JUndefined);
        ("applied_scanners_results",
          JArr [ JObj
            [ ("scanner_name", JStr "anonymize");
              ("input_prompt", JStr text);
              ("sanitized_prompt", JStr text);
              ("is_valid", JUndefined);
              ("risk_score", JNum 0);
              ("details", JObj []) ] ]) ]) in
  (∀ response, Page.setApiResponse text (ScanResponse_json response) = shown)
  ∧ Page.setApiResponse text (reply_body (V2.POST (Some body) remote)) = shown
  ∧ (∀ reply, V3.attempt body remote = Some reply → reply_status reply = 200 →
              Page.setApiResponse text (reply_body reply) = shown).
Proof.
  cbn zeta. split; [done|]. split.
  - cbn [V2.POST reply_body]. unfold V2.proxy.
    destruct remote as [e|status [|apiData]]; [done| |].
    + by destruct (ok status).
    + destruct (ok status); [|done]. unfold V2.response.
      by destruct (JS.get apiData "sanitized_prompt").
  - intros reply Hreply Hstatus. unfold V3.attempt in Hreply.
    destruct remote as [e|status [|apiData]]; [done| |].
    + destruct (ok status) eqn:Hok; [done|].
      unfold V3.error_reply in Hreply. cbn in Hreply.
      case_match; [|done]. injection Hreply as <-. cbn in Hstatus. subst status.
      discriminate Hok.
    + destruct (ok status) eqn:Hok.
      * unfold V3.response in Hreply.
        destruct (JS.get apiData "sanitized_prompt"); [|done].
        cbn in Hreply. by injection Hreply as <-.
      * unfold V3.error_reply in Hreply.
        destruct (JS.get apiData "error"); [|done]. cbn in Hreply.
        case_match; [|done]. injection Hreply as <-. cbn in Hstatus.
        subst status. discriminate Hok.
Qed.
